(** * Battery Cell Monitor (demo.py): the session workflow

    A shallow embedding of the state handling of [src/demo.py]: the three
    entries of [st.session_state] ([cells_data], [cell_types], [step]) and
    the five widget handlers that write to them (Reset All, Add Cell,
    Continue to Monitoring Dashboard, Back to Cell Setup and the per-cell
    current input), plus the Quick Stats block of the sidebar and what the
    two pages compute from the session: column counts, progress values,
    battery levels, cell titles, widget keys, colours and the rows of the
    data frame.

    Conventions of the embedding.
    - Python floats are modelled by rationals ([Q]); [==] and [!=] on
      floats are [Qeq_bool], and the literals [3.2], [0.0], ... are the
      rationals they denote.  A rational stands for the binary64 number
      nearest to it.
    - The product of two floats (line 206) is the binary64 product: both
      factors are taken to the nearest binary64 number, and so is their
      exact product ([Py.fmul]).  Overflow to infinity is not modelled; the
      products of the script are below 361.
    - [round(x, n)] is rounding to [n] decimals, ties to even.
    - A Python [dict] keeps insertion order, so [cells_data] is an
      association list in insertion order; assigning to an existing key
      keeps its position, assigning to a new key appends.
    - [random.uniform(25, 40)] is an explicit input of the Add Cell handler.
    - One user action is one event; the script is re-run after each, and a
      handler whose widget is not rendered (or is disabled) does nothing. *)

From Stdlib Require Import ZArith QArith Qround Qpower List String Ascii Bool.
From Stdlib Require Import Lia Lqa.
From Stdlib Require Import Decimal DecimalString DecimalNat.
Import ListNotations.

Local Open Scope string_scope.
Local Open Scope Q_scope.

(** ** Python primitives used by the script *)

Module Py.

(** Nearest integer, ties to even. *)
Definition round_half_even (q : Q) : Z :=
  let n := Qnum q in
  let d := Zpos (Qden q) in
  let f := (n / d)%Z in
  match (2 * (n mod d) ?= d)%Z with
  | Lt => f
  | Gt => (f + 1)%Z
  | Eq => if Z.even f then f else (f + 1)%Z
  end.

Fixpoint pow10 (ndigits : nat) : positive :=
  match ndigits with
  | O => 1%positive
  | S n => (10 * pow10 n)%positive
  end.

(** [round(x, ndigits)] *)
Definition round (x : Q) (ndigits : nat) : Q :=
  round_half_even (x * (Zpos (pow10 ndigits) # 1)) # pow10 ndigits.

(** The binary exponent of a positive rational [q]: the [e] with
    [2 ^ e <= q < 2 ^ (e + 1)]. *)
Definition binade (q : Q) : Z :=
  let e0 := (Z.log2 (Qnum q) - Z.log2 (Zpos (Qden q)))%Z in
  if Qle_bool (2 ^ e0) q then e0 else (e0 - 1)%Z.

(** The binary64 number nearest to a positive rational, ties to even: 53
    bits of precision, and the fixed spacing [2 ^ (-1074)] below
    [2 ^ (-1022)]. *)
Definition fl_pos (q : Q) : Q :=
  let e := Z.max (binade q) (-1022) in
  let ulp := 2 ^ (e - 52) in
  inject_Z (round_half_even (q / ulp)) * ulp.

(** The binary64 number nearest to a rational. *)
Definition fl (x : Q) : Q :=
  let q := Qred x in
  match Qnum q with
  | Z0 => 0
  | Zpos _ => fl_pos q
  | Zneg _ => - fl_pos (- q)
  end.

(** [a * b] on floats. *)
Definition fmul (a b : Q) : Q := fl (fl a * fl b).

(** [str(n)] for a non-negative integer, as an f-string prints it. *)
Definition str (n : nat) : string :=
  NilEmpty.string_of_uint (Nat.to_uint n).

Definition lower_ascii (c : ascii) : ascii :=
  let n := nat_of_ascii c in
  if ((65 <=? n) && (n <=? 90))%nat then ascii_of_nat (n + 32) else c.

(** [s.lower()] *)
Fixpoint lower (s : string) : string :=
  match s with
  | EmptyString => EmptyString
  | String c s' => String (lower_ascii c) (lower s')
  end.

(** A [dict] with string keys, in insertion order. *)
Definition dict (V : Type) : Type := list (string * V).

(** [d[k]] / [k in d] *)
Fixpoint get {V : Type} (k : string) (d : dict V) : option V :=
  match d with
  | [] => None
  | (k', v) :: d' => if String.eqb k' k then Some v else get k d'
  end.

(** [d[k] = v] *)
Fixpoint set {V : Type} (k : string) (v : V) (d : dict V) : dict V :=
  match d with
  | [] => [(k, v)]
  | (k', v') :: d' =>
      if String.eqb k' k then (k', v) :: d' else (k', v') :: set k v d'
  end.

(** [list(d.keys())] and [d.values()] *)
Definition keys {V : Type} (d : dict V) : list string := map fst d.
Definition values {V : Type} (d : dict V) : list V := map snd d.

(** [sum(xs)] *)
Definition sum (xs : list Q) : Q := fold_left Qplus xs 0.

(** [np.mean(xs)] on a non-empty list *)
Definition mean (xs : list Q) : Q := sum xs / inject_Z (Z.of_nat (List.length xs)).

End Py.

(** ** Session state *)

(** The dict stored under each key of [cells_data] (lines 132-140). *)
Record Cell : Type := mkCell {
  voltage : Q;
  current : Q;
  temp : Q;
  capacity : Q;
  min_voltage : Q;
  max_voltage : Q;
  type : string
}.

(** [st.session_state] (lines 62-67). *)
Record Session : Type := mkSession {
  cells_data : Py.dict Cell;
  cell_types : list string;
  step : Z
}.

(** First run of the script: nothing is in the session state yet. *)
Definition init : Session :=
  {| cells_data := []; cell_types := []; step := 1 |}.

Definition cell_type_options : list string :=
  ["Select cell type..."; "LFP"; "NMC"].

(** ** Handlers *)

(** Reset All (lines 78-82); the button is in the sidebar, always shown. *)
Definition reset_all (s : Session) : Session :=
  {| cells_data := []; cell_types := []; step := 1 |}.

(** The [disabled=] argument of the Add Cell button (line 121). *)
Definition add_cell_disabled (selected_type : string) (s : Session) : bool :=
  (selected_type =? "Select cell type...")
  || (8 <=? List.length (cell_types s))%nat.

(** The key built at line 126. *)
Definition make_cell_key (n : nat) (cell_type : string) : string :=
  "cell_" ++ Py.str n ++ "_" ++ cell_type.

(** Add Cell (lines 120-141).  [u] is the value of
    [random.uniform(25, 40)].  The button is rendered in step 1 only. *)
Definition add_cell (selected_type : string) (u : Q) (s : Session) : Session :=
  if negb (step s =? 1)%Z then s
  else if add_cell_disabled selected_type s then s
  else
    let cell_type := Py.lower selected_type in
    let cell_types' := (cell_types s ++ [cell_type])%list in
    let cell_key := make_cell_key (List.length cell_types') cell_type in
    let voltage := if cell_type =? "lfp" then 32 # 10 else 36 # 10 in
    let min_voltage := if cell_type =? "lfp" then 28 # 10 else 32 # 10 in
    let max_voltage := if cell_type =? "lfp" then 36 # 10 else 40 # 10 in
    let temp := Py.round u 1 in
    {| cells_data :=
         Py.set cell_key
           {| voltage := voltage;
              current := 0;
              temp := temp;
              capacity := 0;
              min_voltage := min_voltage;
              max_voltage := max_voltage;
              type := cell_type |}
           (cells_data s);
       cell_types := cell_types';
       step := step s |}.

(** Continue to Monitoring Dashboard (lines 144, 166-168): rendered in step
    1, inside [if st.session_state.cell_types:]. *)
Definition continue_to_monitoring (s : Session) : Session :=
  if negb (step s =? 1)%Z then s
  else match cell_types s with
       | [] => s
       | _ :: _ =>
           {| cells_data := cells_data s;
              cell_types := cell_types s;
              step := 2 |}
       end.

(** Back to Cell Setup (lines 171, 177-179): rendered in step 2. *)
Definition back_to_setup (s : Session) : Session :=
  if negb (step s =? 2)%Z then s
  else {| cells_data := cells_data s;
          cell_types := cell_types s;
          step := 1 |}.

(** The current input of one cell (lines 188-206): rendered in step 2 for
    each key of [cells_data]; [new_current] is what the number input
    returns.  The product of line 206 is a product of floats. *)
Definition set_current (cell_key : string) (new_current : Q) (s : Session)
  : Session :=
  if negb (step s =? 2)%Z then s
  else match Py.get cell_key (cells_data s) with
       | None => s
       | Some cell =>
           if negb (Qeq_bool new_current (current cell)) then
             let cell1 :=
               {| voltage := voltage cell;
                  current := new_current;
                  temp := temp cell;
                  capacity := capacity cell;
                  min_voltage := min_voltage cell;
                  max_voltage := max_voltage cell;
                  type := type cell |} in
             let cell2 :=
               {| voltage := voltage cell1;
                  current := current cell1;
                  temp := temp cell1;
                  capacity := Py.round (Py.fmul (voltage cell1) new_current) 2;
                  min_voltage := min_voltage cell1;
                  max_voltage := max_voltage cell1;
                  type := type cell1 |} in
             {| cells_data := Py.set cell_key cell2 (cells_data s);
                cell_types := cell_types s;
                step := step s |}
           else s
       end.

(** Quick Stats (lines 92-96): [(total_cells, avg_temp, total_capacity)],
    computed only under [if st.session_state.cells_data:]. *)
Definition quick_stats (s : Session) : option (nat * Q * Q) :=
  match cells_data s with
  | [] => None
  | _ :: _ =>
      let total_cells := List.length (cells_data s) in
      let avg_temp := Py.mean (map temp (Py.values (cells_data s))) in
      let total_capacity := Py.sum (map capacity (Py.values (cells_data s))) in
      Some (total_cells, avg_temp, total_capacity)
  end.

(** ** Events and runs *)

Inductive Event : Type :=
| ResetAll
| AddCell (selected_type : string) (u : Q)
| ContinueToMonitoring
| BackToSetup
| SetCurrent (cell_key : string) (new_current : Q).

Definition handle (e : Event) (s : Session) : Session :=
  match e with
  | ResetAll => reset_all s
  | AddCell selected_type u => add_cell selected_type u s
  | ContinueToMonitoring => continue_to_monitoring s
  | BackToSetup => back_to_setup s
  | SetCurrent cell_key new_current => set_current cell_key new_current s
  end.

Definition run (es : list Event) (s : Session) : Session :=
  fold_left (fun s e => handle e s) es s.

(** What the widgets can deliver: the selectbox returns one of its options,
    [random.uniform(25, 40)] a value of [[25, 40)], the number input a value
    between its [min_value] and [max_value]. *)
Definition widget_ok (e : Event) : Prop :=
  match e with
  | AddCell selected_type u =>
      In selected_type cell_type_options /\ 25 <= u /\ u < 40
  | SetCurrent _ new_current => 0 <= new_current /\ new_current <= 100
  | _ => True
  end.

Inductive reachable : Session -> Prop :=
| reachable_init : reachable init
| reachable_step e s : reachable s -> widget_ok e -> reachable (handle e s).

(** The positions and kinds that [cells_data] is expected to hold for a
    given [cell_types]: the [i]-th cell (counting from [n]) is stored under
    [make_cell_key i kind]. *)
Fixpoint keyed (n : nat) (ts : list string) : list (string * string) :=
  match ts with
  | [] => []
  | t :: ts' => (make_cell_key n t, t) :: keyed (S n) ts'
  end.

Definition key_and_type (kc : string * Cell) : string * string :=
  (fst kc, type (snd kc)).

(** The voltage fields belong to the kind. *)
Definition kind_constants (c : Cell) : Prop :=
  (type c = "lfp" /\ voltage c = 32 # 10 /\ min_voltage c = 28 # 10
   /\ max_voltage c = 36 # 10)
  \/ (type c = "nmc" /\ voltage c = 36 # 10 /\ min_voltage c = 32 # 10
      /\ max_voltage c = 40 # 10).

Definition cell_ok (c : Cell) : Prop :=
  capacity c == Py.round (Py.fmul (voltage c) (current c)) 2
  /\ kind_constants c
  /\ 25 <= temp c /\ temp c <= 40.

(** What every reachable session satisfies. *)
Record session_inv (s : Session) : Prop := mkInv {
  inv_step : step s = 1%Z \/ step s = 2%Z;
  inv_cap : (List.length (cell_types s) <= 8)%nat;
  inv_sync : map key_and_type (cells_data s) = keyed 1 (cell_types s);
  inv_monitor : step s = 2%Z -> cell_types s <> [];
  inv_cells : Forall cell_ok (Py.values (cells_data s))
}.

(** The fields that no handler writes after creation. *)
Definition same_fixed_fields (c c' : Cell) : Prop :=
  type c' = type c /\ voltage c' = voltage c
  /\ min_voltage c' = min_voltage c /\ max_voltage c' = max_voltage c
  /\ temp c' = temp c.

(** ** Views: what the pages compute from the session *)

(** [min(a, b)] on numbers: [b] when it is smaller, else [a]. *)
Definition py_min (a b : Q) : Q := if Qle_bool a b then a else b.

Definition upper_ascii (c : ascii) : ascii :=
  let n := nat_of_ascii c in
  if ((97 <=? n) && (n <=? 122))%nat then ascii_of_nat (n - 32) else c.

(** [s.upper()] *)
Fixpoint py_upper (s : string) : string :=
  match s with
  | EmptyString => EmptyString
  | String c s' => String (upper_ascii c) (py_upper s')
  end.

(** [s.replace(old, new)] for one-character [old] and [new]. *)
Fixpoint py_replace_char (old new : ascii) (s : string) : string :=
  match s with
  | EmptyString => EmptyString
  | String c s' =>
      String (if Ascii.eqb c old then new else c) (py_replace_char old new s')
  end.

Definition is_cased_ascii (c : ascii) : bool :=
  let n := nat_of_ascii c in
  (((65 <=? n) && (n <=? 90)) || ((97 <=? n) && (n <=? 122)))%nat.

(** [s.title()]: a letter that follows a letter is lowered, any other
    letter is raised. *)
Fixpoint title_from (previous_is_cased : bool) (s : string) : string :=
  match s with
  | EmptyString => EmptyString
  | String c s' =>
      String (if previous_is_cased then Py.lower_ascii c else upper_ascii c)
             (title_from (is_cased_ascii c) s')
  end.

Definition py_title (s : string) : string := title_from false s.

(** The card of a cell on the setup page (line 150). *)
Definition card_class (cell_type : string) : string :=
  if cell_type =? "lfp" then "lfp-card" else "nmc-card".

(** The argument of [st.columns] on the setup page (line 147) and the
    column a card goes to (line 149). *)
Definition setup_columns (s : Session) : nat :=
  Nat.min 4 (List.length (cell_types s)).

Definition setup_column_of (idx : nat) : nat := idx mod 4.

(** The value given to the progress bar of the setup page (lines 161-162). *)
Definition setup_progress (s : Session) : Q :=
  inject_Z (Z.of_nat (List.length (cell_types s))) / 8.

(** The argument of [st.columns] on the monitoring page (lines 185-186) and
    the column a cell control goes to (line 190). *)
Definition monitor_columns (s : Session) : nat :=
  Nat.min 3 (List.length (Py.keys (cells_data s))).

Definition monitor_column_of (idx : nat) : nat := idx mod 3.

(** The title of a cell: [cell_key.replace('_', ' ').title()]
    (lines 192, 218, 258). *)
Definition cell_title (cell_key : string) : string :=
  py_title (py_replace_char "_" " " cell_key).

(** The widget key of the current input of a cell (line 201). *)
Definition current_widget_key (cell_key : string) : string :=
  "current_" ++ cell_key.

(** The colour of a monitoring card (line 214). *)
Definition card_color (cell : Cell) : string :=
  if type cell =? "lfp" then "#38ef7d" else "#764ba2".

(** The battery level of a cell (line 245) and the value given to its
    progress bar (line 246). *)
Definition battery_level (cell : Cell) : Q :=
  if negb (Qle_bool (capacity cell) 0)
  then py_min 100 (capacity cell / 10 * 100)
  else 0.

Definition battery_progress (cell : Cell) : Q := battery_level cell / 100.

(** A row of the data frame (lines 257-264). *)
Record Row : Type := mkRow {
  row_cell : string;
  row_voltage : Q;
  row_current : Q;
  row_temperature : Q;
  row_capacity : Q;
  row_type : string
}.

Definition df_data (s : Session) : list Row :=
  map (fun kc : string * Cell =>
         {| row_cell := cell_title (fst kc);
            row_voltage := voltage (snd kc);
            row_current := current (snd kc);
            row_temperature := temp (snd kc);
            row_capacity := capacity (snd kc);
            row_type := py_upper (type (snd kc)) |})
      (cells_data s).

(** [color_discrete_map] of the two charts (lines 281, 297). *)
Definition color_discrete_map : Py.dict string :=
  [("LFP", "#38ef7d"); ("NMC", "#764ba2")].

(** The bar colours of the capacity chart (line 312). *)
Definition marker_color (s : Session) : list string :=
  map (fun r => if row_type r =? "LFP" then "#38ef7d" else "#764ba2")
      (df_data s).

(** The current of a stored cell is one the number input can deliver
    (lines 197-198). *)
Definition current_in_range (c : Cell) : Prop :=
  0 <= current c /\ current c <= 100.

(** ** Sample sessions *)

(** Two cells whose temperatures are 25.0 and 40.0. *)
Definition two_cells : Session :=
  run [AddCell "LFP" 25; AddCell "NMC" (3996 # 100)] init.

(** The same two cells, in the monitoring step. *)
Definition monitoring : Session :=
  run [ContinueToMonitoring] two_cells.

(** A session with eight cells. *)
Definition full : Session :=
  run (repeat (AddCell "LFP" 30) 8) init.

(** The monitoring session after the current of the first cell is set
    to 5.0. *)
Definition charged : Session :=
  run [SetCurrent "cell_1_lfp" 5] monitoring.

(** * Lemmas *)

(** ** Dictionaries *)

Section Dict.
Context {V : Type}.
Implicit Types (k : string) (v : V) (d : Py.dict V).

Lemma get_In k v d : Py.get k d = Some v -> In (k, v) d.
Proof.
  induction d as [|[k' v'] d IH]; simpl; [discriminate|].
  destruct (String.eqb_spec k' k) as [->|_].
  - intros [= ->]. now left.
  - intros H. right. now apply IH.
Qed.

Lemma get_None_keys k d : Py.get k d = None <-> ~ In k (Py.keys d).
Proof.
  induction d as [|[k' v'] d IH]; simpl.
  - tauto.
  - destruct (String.eqb_spec k' k) as [->|Hne].
    + split; [discriminate | intros H; exfalso; apply H; now left].
    + rewrite IH. tauto.
Qed.

Lemma In_keys_get k d : In k (Py.keys d) -> exists v, Py.get k d = Some v.
Proof.
  intros Hin. destruct (Py.get k d) as [v|] eqn:E; [now exists v|].
  apply get_None_keys in E. contradiction.
Qed.

Lemma get_set_same k v d : Py.get k (Py.set k v d) = Some v.
Proof.
  induction d as [|[k' v'] d IH]; simpl.
  - now rewrite String.eqb_refl.
  - destruct (String.eqb_spec k' k) as [->|Hne]; simpl.
    + now rewrite String.eqb_refl.
    + apply String.eqb_neq in Hne. now rewrite Hne.
Qed.

Lemma get_set_other k k0 v d : k0 <> k -> Py.get k0 (Py.set k v d) = Py.get k0 d.
Proof.
  intros Hne. induction d as [|[k' v'] d IH]; simpl.
  - destruct (String.eqb_spec k k0) as [->|_]; [contradiction|reflexivity].
  - destruct (String.eqb_spec k' k) as [->|Hne']; simpl.
    + destruct (String.eqb_spec k k0) as [->|_]; [contradiction|reflexivity].
    + now rewrite IH.
Qed.

(** Assigning to a key that is not there appends the item. *)
Lemma set_fresh k v d : Py.get k d = None -> Py.set k v d = (d ++ [(k, v)])%list.
Proof.
  induction d as [|[k' v'] d IH]; simpl; [reflexivity|].
  destruct (String.eqb_spec k' k) as [->|_]; [discriminate|].
  intros H. now rewrite IH.
Qed.

(** Assigning to a key that is there keeps the keys and their order, and
    any projection of the values that the old and new value agree on. *)
Lemma set_present_map {B : Type} (f : string * V -> B) k v v0 d :
  Py.get k d = Some v0 -> f (k, v) = f (k, v0) ->
  map f (Py.set k v d) = map f d.
Proof.
  intros Hget Hf. induction d as [|[k' v'] d IH]; simpl in *; [discriminate|].
  destruct (String.eqb_spec k' k) as [->|_]; simpl.
  - injection Hget as ->. now rewrite Hf.
  - now rewrite IH.
Qed.

Lemma set_values_Forall (P : V -> Prop) k v d :
  Forall P (Py.values d) -> P v -> Forall P (Py.values (Py.set k v d)).
Proof.
  intros Hd Hv. induction d as [|[k' v'] d IH]; simpl in *.
  - now constructor.
  - inversion Hd as [|? ? Hv' Hd']; subst.
    destruct (String.eqb k' k); simpl; constructor; auto.
Qed.

Lemma In_values (P : V -> Prop) k v d :
  Forall P (Py.values d) -> In (k, v) d -> P v.
Proof.
  intros HF Hin. unfold Py.values in HF. rewrite Forall_forall in HF.
  apply HF. now apply (in_map snd) in Hin.
Qed.

End Dict.

(** ** Cell keys *)

(** A printed number is read back up to the first underscore. *)
Lemma string_of_uint_sep_inj (d d' : uint) (r r' : string) :
  NilEmpty.string_of_uint d ++ String "_" r
  = NilEmpty.string_of_uint d' ++ String "_" r' ->
  d = d'.
Proof.
  revert d'. induction d as [|d IH|d IH|d IH|d IH|d IH|d IH|d IH|d IH|d IH|d IH];
    intros [|e|e|e|e|e|e|e|e|e|e]; simpl; intros H;
    try reflexivity; try discriminate H;
    injection H as H; f_equal; now apply IH.
Qed.

Lemma make_cell_key_inj (n m : nat) (t t' : string) :
  make_cell_key n t = make_cell_key m t' -> n = m.
Proof.
  unfold make_cell_key, Py.str. simpl. intros H.
  injection H as H.
  apply string_of_uint_sep_inj in H.
  now apply Unsigned.to_uint_inj.
Qed.

Lemma keyed_app (n : nat) (ts : list string) (t : string) :
  keyed n (ts ++ [t])%list
  = (keyed n ts ++ [(make_cell_key (n + List.length ts) t, t)])%list.
Proof.
  revert n. induction ts as [|t0 ts IH]; intros n; simpl.
  - now rewrite Nat.add_0_r.
  - rewrite IH. now rewrite Nat.add_succ_r.
Qed.

Lemma keyed_keys_range (n : nat) (ts : list string) (k : string) :
  In k (map fst (keyed n ts)) ->
  exists i t, (n <= i < n + List.length ts)%nat /\ k = make_cell_key i t.
Proof.
  revert n. induction ts as [|t0 ts IH]; intros n; simpl; [tauto|].
  intros [<-|Hin].
  - exists n, t0. split; [lia|reflexivity].
  - destruct (IH _ Hin) as (i & t & Hi & ->).
    exists i, t. split; [lia|reflexivity].
Qed.

Lemma keyed_NoDup (n : nat) (ts : list string) : NoDup (map fst (keyed n ts)).
Proof.
  revert n. induction ts as [|t0 ts IH]; intros n; simpl; constructor.
  - intros Hin. apply keyed_keys_range in Hin as (i & t & Hi & Heq).
    apply make_cell_key_inj in Heq. lia.
  - apply IH.
Qed.

Lemma keyed_nth (n : nat) (ts : list string) (i : nat) (k t : string) :
  nth_error (keyed n ts) i = Some (k, t) ->
  k = make_cell_key (n + i) t /\ nth_error ts i = Some t.
Proof.
  revert n i. induction ts as [|t0 ts IH]; intros n [|i]; simpl; try discriminate.
  - intros [= <- <-]. now rewrite Nat.add_0_r.
  - intros H. apply IH in H as [-> H]. split; [f_equal; lia|exact H].
Qed.

Lemma keys_key_and_type (d : Py.dict Cell) :
  map fst (map key_and_type d) = Py.keys d.
Proof. unfold Py.keys. rewrite map_map. reflexivity. Qed.

(** The key of the next cell is not in a synchronized dictionary. *)
Lemma next_key_fresh (s : Session) (t : string) :
  map key_and_type (cells_data s) = keyed 1 (cell_types s) ->
  Py.get (make_cell_key (S (List.length (cell_types s))) t) (cells_data s) = None.
Proof.
  intros Hsync. apply get_None_keys.
  rewrite <- keys_key_and_type, Hsync. intros Hin.
  apply keyed_keys_range in Hin as (i & t' & Hi & Heq).
  apply make_cell_key_inj in Heq. lia.
Qed.

(** ** Rounding *)

Lemma round_half_even_bounds (q : Q) (a b : Z) :
  inject_Z a <= q -> q <= inject_Z b ->
  (a <= Py.round_half_even q <= b)%Z.
Proof.
  destruct q as [n d]. unfold Qle, Py.round_half_even, inject_Z.
  cbn [Qnum Qden]. intros Ha Hb.
  pose proof (Z.div_mod n (Zpos d) ltac:(lia)) as Hdm.
  pose proof (Z.mod_pos_bound n (Zpos d) ltac:(lia)) as Hr.
  set (f := (n / Zpos d)%Z) in *. set (r := (n mod Zpos d)%Z) in *.
  assert (Hlo : (a <= f)%Z) by nia.
  assert (Hhi : (f <= b)%Z) by nia.
  assert (Hup : (0 < r -> f + 1 <= b)%Z) by nia.
  destruct (Z.compare_spec (2 * r) (Zpos d)) as [He|Hl|Hg].
  - destruct (Z.even f); lia.
  - lia.
  - lia.
Qed.

(** Rounding to one decimal keeps a value between two bounds that have at
    most one decimal themselves. *)
Lemma round1_bounds (u : Q) (a b : Z) :
  inject_Z a <= u -> u <= inject_Z b ->
  inject_Z a <= Py.round u 1 /\ Py.round u 1 <= inject_Z b.
Proof.
  intros Ha Hb. unfold Py.round.
  assert (H : (10 * a <= Py.round_half_even (u * (Zpos (Py.pow10 1) # 1))
               <= 10 * b)%Z).
  { apply round_half_even_bounds.
    - destruct u as [n d]. unfold Qle, Qmult, inject_Z in *.
      cbn [Qnum Qden Py.pow10] in *. lia.
    - destruct u as [n d]. unfold Qle, Qmult, inject_Z in *.
      cbn [Qnum Qden Py.pow10] in *. lia. }
  unfold Qle, inject_Z. cbn [Qnum Qden Py.pow10] in *. lia.
Qed.

(** The rounded value depends on the number only, not on the fraction that
    denotes it. *)
Lemma round_half_even_compare (q : Q) :
  (2 * (Qnum q mod Zpos (Qden q)) ?= Zpos (Qden q))%Z
  = (q ?= (2 * Qfloor q + 1 # 2)).
Proof.
  destruct q as [n d]. unfold Qcompare, Qfloor. cbn [Qnum Qden].
  pose proof (Z.div_mod n (Zpos d) ltac:(lia)) as Hdm.
  rewrite (Z.compare_sub (2 * (n mod Zpos d))), (Z.compare_sub (n * Zpos 2)).
  f_equal. lia.
Qed.

Lemma round_half_even_floor (q : Q) :
  Py.round_half_even q =
  match q ?= (2 * Qfloor q + 1 # 2) with
  | Lt => Qfloor q
  | Gt => (Qfloor q + 1)%Z
  | Eq => if Z.even (Qfloor q) then Qfloor q else (Qfloor q + 1)%Z
  end.
Proof.
  unfold Py.round_half_even. rewrite round_half_even_compare.
  destruct q as [n d]. reflexivity.
Qed.

Lemma round_half_even_comp (p q : Q) :
  p == q -> Py.round_half_even p = Py.round_half_even q.
Proof.
  intros H. rewrite !round_half_even_floor.
  rewrite (Qfloor_comp _ _ H).
  now rewrite (Qcompare_comp _ _ H _ _ (Qeq_refl _)).
Qed.

Lemma round_comp (p q : Q) (ndigits : nat) :
  p == q -> Py.round p ndigits = Py.round q ndigits.
Proof.
  intros H. unfold Py.round. f_equal.
  apply round_half_even_comp. now rewrite H.
Qed.

(** ** The handlers, case by case *)

Lemma add_cell_noop_step (selected_type : string) (u : Q) (s : Session) :
  step s <> 1%Z -> add_cell selected_type u s = s.
Proof.
  intros H. unfold add_cell. apply Z.eqb_neq in H. now rewrite H.
Qed.

Lemma add_cell_noop_disabled (selected_type : string) (u : Q) (s : Session) :
  add_cell_disabled selected_type s = true -> add_cell selected_type u s = s.
Proof.
  intros H. unfold add_cell. rewrite H. now destruct (negb _).
Qed.

Lemma enabled_selected (selected_type : string) (s : Session) :
  In selected_type cell_type_options ->
  add_cell_disabled selected_type s = false ->
  (selected_type = "LFP" \/ selected_type = "NMC")
  /\ (List.length (cell_types s) < 8)%nat.
Proof.
  unfold add_cell_disabled. intros Hin Hd.
  apply orb_false_iff in Hd as [Hsel Hlen].
  apply Nat.leb_gt in Hlen. split; [|exact Hlen].
  simpl in Hin. destruct Hin as [<-|[<-|[<-|[]]]]; auto.
  discriminate Hsel.
Qed.

(** What an enabled Add Cell does to a synchronized session: one item is
    appended to each of the two structures. *)
Lemma add_cell_enabled (selected_type : string) (u : Q) (s : Session) :
  In selected_type cell_type_options ->
  step s = 1%Z ->
  add_cell_disabled selected_type s = false ->
  map key_and_type (cells_data s) = keyed 1 (cell_types s) ->
  exists c : Cell,
    ((selected_type = "LFP" /\ type c = "lfp" /\ voltage c = 32 # 10
      /\ min_voltage c = 28 # 10 /\ max_voltage c = 36 # 10)
     \/ (selected_type = "NMC" /\ type c = "nmc" /\ voltage c = 36 # 10
         /\ min_voltage c = 32 # 10 /\ max_voltage c = 40 # 10))
    /\ current c = 0 /\ capacity c = 0 /\ temp c = Py.round u 1
    /\ add_cell selected_type u s =
       {| cells_data :=
            (cells_data s
             ++ [(make_cell_key (S (List.length (cell_types s))) (type c), c)])%list;
          cell_types := (cell_types s ++ [type c])%list;
          step := step s |}.
Proof.
  intros Hin Hstep Hen Hsync.
  destruct (enabled_selected _ _ Hin Hen) as [Hsel _].
  unfold add_cell. rewrite Hen, Hstep. cbn [Z.eqb Pos.eqb negb].
  rewrite last_length.
  destruct Hsel as [-> | ->].
  - change (Py.lower "LFP") with "lfp".
    change ("lfp" =? "lfp")%string with true. cbv iota zeta.
    exists (mkCell (32 # 10) 0 (Py.round u 1) 0 (28 # 10) (36 # 10) "lfp").
    cbn [type voltage min_voltage max_voltage current capacity temp].
    split; [left; repeat split; reflexivity|].
    rewrite set_fresh by (now apply next_key_fresh).
    repeat split; reflexivity.
  - change (Py.lower "NMC") with "nmc".
    change ("nmc" =? "lfp")%string with false. cbv iota zeta.
    exists (mkCell (36 # 10) 0 (Py.round u 1) 0 (32 # 10) (40 # 10) "nmc").
    cbn [type voltage min_voltage max_voltage current capacity temp].
    split; [right; repeat split; reflexivity|].
    rewrite set_fresh by (now apply next_key_fresh).
    repeat split; reflexivity.
Qed.

Lemma set_current_noop_step (cell_key : string) (v : Q) (s : Session) :
  step s <> 2%Z -> set_current cell_key v s = s.
Proof.
  intros H. unfold set_current. apply Z.eqb_neq in H. now rewrite H.
Qed.

(** What the current input does when it writes. *)
Lemma set_current_write (cell_key : string) (v : Q) (s : Session) (cell : Cell) :
  step s = 2%Z ->
  Py.get cell_key (cells_data s) = Some cell ->
  Qeq_bool v (current cell) = false ->
  set_current cell_key v s =
  {| cells_data :=
       Py.set cell_key
         {| voltage := voltage cell;
            current := v;
            temp := temp cell;
            capacity := Py.round (Py.fmul (voltage cell) v) 2;
            min_voltage := min_voltage cell;
            max_voltage := max_voltage cell;
            type := type cell |}
         (cells_data s);
     cell_types := cell_types s;
     step := step s |}.
Proof.
  intros Hstep Hget Hne. unfold set_current.
  rewrite Hstep, Hget, Hne. reflexivity.
Qed.

Lemma set_current_cases (cell_key : string) (v : Q) (s : Session) :
  set_current cell_key v s = s
  \/ exists cell,
       step s = 2%Z
       /\ Py.get cell_key (cells_data s) = Some cell
       /\ Qeq_bool v (current cell) = false.
Proof.
  unfold set_current.
  destruct (Z.eqb_spec (step s) 2) as [Hs|Hs]; cbn [negb]; [|now left].
  destruct (Py.get cell_key (cells_data s)) as [cell|] eqn:Hget; [|now left].
  destruct (Qeq_bool v (current cell)) eqn:Hq; cbn [negb]; [now left|].
  right. now exists cell.
Qed.

(** ** The invariant *)

Lemma init_inv : session_inv init.
Proof.
  constructor; simpl; try (now auto); try lia; try discriminate.
Qed.

Lemma reset_all_inv (s : Session) : session_inv (reset_all s).
Proof. exact init_inv. Qed.

Lemma fl_comp (x y : Q) : x == y -> Py.fl x = Py.fl y.
Proof. intros H. unfold Py.fl. now rewrite (Qred_complete _ _ H). Qed.

Lemma fmul_comp (a a' b b' : Q) :
  a == a' -> b == b' -> Py.fmul a b = Py.fmul a' b'.
Proof.
  intros Ha Hb. unfold Py.fmul.
  now rewrite (fl_comp a a' Ha), (fl_comp b b' Hb).
Qed.

Lemma round_zero_current (v : Q) : 0 == Py.round (Py.fmul v 0) 2.
Proof.
  unfold Py.fmul. change (Py.fl 0) with 0.
  rewrite (fl_comp (Py.fl v * 0) 0) by ring. reflexivity.
Qed.

Lemma add_cell_inv (selected_type : string) (u : Q) (s : Session) :
  widget_ok (AddCell selected_type u) ->
  session_inv s -> session_inv (add_cell selected_type u s).
Proof.
  intros (Hin & Hlo & Hhi) Hinv.
  destruct (Z.eq_dec (step s) 1) as [Hstep|Hstep];
    [|now rewrite add_cell_noop_step].
  destruct (add_cell_disabled selected_type s) eqn:Hen;
    [now rewrite add_cell_noop_disabled|].
  destruct (enabled_selected _ _ Hin Hen) as [_ Hlen].
  destruct (add_cell_enabled _ u _ Hin Hstep Hen (inv_sync _ Hinv))
    as (c & Hkind & Hcur & Hcap & Htemp & ->).
  constructor; cbn [cells_data cell_types step].
  - now left.
  - rewrite last_length. lia.
  - rewrite map_app, keyed_app, (inv_sync _ Hinv). reflexivity.
  - intros _ H. now apply app_eq_nil in H as [_ H].
  - unfold Py.values. rewrite map_app. apply Forall_app. split.
    + exact (inv_cells _ Hinv).
    + constructor; [|constructor]. cbn [snd]. unfold cell_ok.
      rewrite Hcur, Hcap, Htemp.
      split; [apply round_zero_current|].
      split; [unfold kind_constants; tauto|].
      apply (round1_bounds u 25 40); [exact Hlo|now apply Qlt_le_weak].
Qed.

Lemma continue_to_monitoring_inv (s : Session) :
  session_inv s -> session_inv (continue_to_monitoring s).
Proof.
  intros Hinv. unfold continue_to_monitoring.
  destruct (negb (step s =? 1)%Z); [exact Hinv|].
  destruct (cell_types s) as [|t ts] eqn:Hts; [exact Hinv|].
  destruct Hinv as [H1 H2 H3 H4 H5].
  constructor; cbn [cells_data cell_types step]; try rewrite <- Hts; auto.
  rewrite Hts. discriminate.
Qed.

Lemma back_to_setup_inv (s : Session) :
  session_inv s -> session_inv (back_to_setup s).
Proof.
  intros Hinv. unfold back_to_setup.
  destruct (negb (step s =? 2)%Z); [exact Hinv|].
  destruct Hinv as [H1 H2 H3 H4 H5].
  constructor; cbn [cells_data cell_types step]; auto. discriminate.
Qed.

Lemma set_current_inv (cell_key : string) (v : Q) (s : Session) :
  session_inv s -> session_inv (set_current cell_key v s).
Proof.
  intros Hinv.
  destruct (set_current_cases cell_key v s) as [->|(cell & Hstep & Hget & Hne)];
    [exact Hinv|].
  rewrite (set_current_write _ _ _ _ Hstep Hget Hne).
  destruct Hinv as [H1 H2 H3 H4 H5].
  constructor; cbn [cells_data cell_types step]; auto.
  - rewrite <- H3. now apply set_present_map with (v0 := cell).
  - apply set_values_Forall; [exact H5|].
    pose proof (In_values _ _ _ _ H5 (get_In _ _ _ Hget)) as (_ & Hk & Ht).
    unfold cell_ok. cbn [capacity voltage current temp].
    split; [reflexivity|]. split; [exact Hk|exact Ht].
Qed.

Lemma handle_inv (e : Event) (s : Session) :
  widget_ok e -> session_inv s -> session_inv (handle e s).
Proof.
  destruct e; cbn [handle]; intros Hok Hinv.
  - apply reset_all_inv.
  - now apply add_cell_inv.
  - now apply continue_to_monitoring_inv.
  - now apply back_to_setup_inv.
  - now apply set_current_inv.
Qed.

Lemma reachable_inv (s : Session) : reachable s -> session_inv s.
Proof.
  induction 1 as [|e s _ IH Hok]; [exact init_inv|now apply handle_inv].
Qed.

(** Both structures have the same length. *)
Lemma inv_same_length (s : Session) :
  session_inv s -> List.length (cells_data s) = List.length (cell_types s).
Proof.
  intros Hinv.
  assert (H : forall n ts, List.length (keyed n ts) = List.length ts).
  { intros n ts. revert n. induction ts; intros n; simpl; auto. }
  rewrite <- (H 1%nat (cell_types s)), <- (inv_sync _ Hinv).
  now rewrite length_map.
Qed.

(** A run of deliverable events ends in a reachable state. *)
Lemma run_reachable (es : list Event) (s : Session) :
  reachable s -> Forall widget_ok es -> reachable (run es s).
Proof.
  revert s. induction es as [|e es IH]; intros s Hs Hes; [exact Hs|].
  inversion Hes as [|? ? He Hes']; subst.
  apply IH; [|exact Hes']. now constructor.
Qed.

(** ** Cells are kept by every handler but Reset All *)

Lemma get_app_Some {V : Type} (k : string) (v : V) (d d' : Py.dict V) :
  Py.get k d = Some v -> Py.get k (d ++ d')%list = Some v.
Proof.
  induction d as [|[k0 v0] d IH]; simpl; [discriminate|].
  destruct (String.eqb k0 k); auto.
Qed.

Lemma In_get {V : Type} (k : string) (v : V) (d : Py.dict V) :
  NoDup (Py.keys d) -> In (k, v) d -> Py.get k d = Some v.
Proof.
  induction d as [|[k0 v0] d IH]; simpl; [tauto|].
  intros Hnd [Heq|Hin]; inversion Hnd as [|? ? Hnotin Hnd']; subst.
  - injection Heq as -> ->. now rewrite String.eqb_refl.
  - destruct (String.eqb_spec k0 k) as [->|_]; [|now apply IH].
    exfalso. apply Hnotin. now apply (in_map fst) in Hin.
Qed.

Lemma inv_NoDup (s : Session) : session_inv s -> NoDup (Py.keys (cells_data s)).
Proof.
  intros Hinv. rewrite <- keys_key_and_type, (inv_sync _ Hinv).
  apply keyed_NoDup.
Qed.

Lemma handle_keeps_cells (e : Event) (s : Session) (k : string) (c : Cell) :
  session_inv s -> widget_ok e -> e <> ResetAll ->
  Py.get k (cells_data s) = Some c ->
  exists c', Py.get k (cells_data (handle e s)) = Some c'
             /\ same_fixed_fields c c'.
Proof.
  intros Hinv Hok Hne Hget.
  assert (Hsame : same_fixed_fields c c) by (repeat split).
  destruct e as [|selected_type u| | |cell_key v]; cbn [handle].
  - congruence.
  - destruct Hok as (Hin & _).
    destruct (Z.eq_dec (step s) 1) as [Hstep|Hstep];
      [|rewrite add_cell_noop_step by assumption; eauto].
    destruct (add_cell_disabled selected_type s) eqn:Hen;
      [rewrite add_cell_noop_disabled by assumption; eauto|].
    destruct (add_cell_enabled _ u _ Hin Hstep Hen (inv_sync _ Hinv))
      as (c0 & _ & _ & _ & _ & ->).
    cbn [cells_data]. exists c. split; [now apply get_app_Some|exact Hsame].
  - unfold continue_to_monitoring.
    destruct (negb _); [eauto|]. destruct (cell_types s); eauto.
  - unfold back_to_setup. destruct (negb _); eauto.
  - destruct (set_current_cases cell_key v s)
      as [->|(cell & Hstep & Hget' & Hq)]; [eauto|].
    rewrite (set_current_write _ _ _ _ Hstep Hget' Hq). cbn [cells_data].
    destruct (String.eqb_spec cell_key k) as [->|Hk].
    + rewrite get_set_same. eexists. split; [reflexivity|].
      assert (cell = c) as -> by congruence. repeat split.
    + rewrite get_set_other by congruence. eauto.
Qed.

(** ** The sample sessions are reachable *)

Lemma add_lfp_ok (u : Q) : 25 <= u -> u < 40 -> widget_ok (AddCell "LFP" u).
Proof. intros H1 H2. simpl. auto. Qed.

Lemma add_nmc_ok (u : Q) : 25 <= u -> u < 40 -> widget_ok (AddCell "NMC" u).
Proof. intros H1 H2. simpl. auto. Qed.

Lemma two_cells_reachable : reachable two_cells.
Proof.
  apply run_reachable; [constructor|].
  repeat constructor; unfold Qle, Qlt; simpl; auto; lia.
Qed.

Lemma monitoring_reachable : reachable monitoring.
Proof.
  apply run_reachable; [exact two_cells_reachable|].
  repeat constructor.
Qed.

Lemma full_reachable : reachable full.
Proof.
  apply run_reachable; [constructor|].
  apply Forall_forall. intros e He. apply repeat_spec in He. subst e.
  apply add_lfp_ok; [unfold Qle|unfold Qlt]; simpl; lia.
Qed.

(** * The claims *)

(** C1. In every reachable session both structures hold at most eight
    cells, and Add Cell leaves the session as it is when eight cells are
    already there or when the placeholder of the selectbox is selected: a
    ninth add changes nothing. *)
Theorem C1_at_most_eight_cells (s : Session) (selected_type : string) (u : Q) :
  reachable s ->
  (List.length (cells_data s) <= 8)%nat
  /\ (List.length (cell_types s) <= 8)%nat
  /\ ((8 <= List.length (cells_data s))%nat
       \/ selected_type = "Select cell type..." ->
      add_cell selected_type u s = s).
Proof.
  intros Hr. pose proof (reachable_inv _ Hr) as Hinv.
  pose proof (inv_same_length _ Hinv) as Hlen.
  pose proof (inv_cap _ Hinv) as Hcap.
  split; [lia|]. split; [exact Hcap|].
  intros H. apply add_cell_noop_disabled. unfold add_cell_disabled.
  apply orb_true_iff. destruct H as [H| ->].
  - right. apply Nat.leb_le. lia.
  - left. reflexivity.
Qed.

Lemma C1_witness :
  List.length (cells_data full) = 8%nat /\ add_cell "LFP" 30 full = full.
Proof.
  split; [reflexivity|].
  apply (C1_at_most_eight_cells full "LFP" 30 full_reachable).
  left. simpl. lia.
Defined.

(** C2. In every reachable session (so after every handler), the capacity
    of every cell is the float product of the voltage and the current,
    rounded to two decimals; and setting the current of an LFP cell to 5.0
    in the monitoring step leaves it with capacity 16.0. *)
Theorem C2_capacity_follows_current (s : Session) (k : string) (c : Cell) :
  reachable s ->
  In (k, c) (cells_data s) ->
  capacity c == Py.round (Py.fmul (voltage c) (current c)) 2
  /\ (type c = "lfp" -> step s = 2%Z ->
      exists c', Py.get k (cells_data (set_current k 5 s)) = Some c'
                 /\ current c' == 5 /\ capacity c' == 16).
Proof.
  intros Hr Hin. pose proof (reachable_inv _ Hr) as Hinv.
  destruct (In_values _ _ _ _ (inv_cells _ Hinv) Hin) as (Hcap & Hkind & _).
  split; [exact Hcap|]. intros Htype Hstep.
  assert (Hv : voltage c = 32 # 10).
  { destruct Hkind as [(_ & Hv & _)|(Ht & _)]; [exact Hv|]. congruence. }
  pose proof (In_get _ _ _ (inv_NoDup _ Hinv) Hin) as Hget.
  assert (H16 : Py.round (Py.fmul (32 # 10) 5) 2 == 16)
    by (vm_compute; reflexivity).
  destruct (Qeq_bool 5 (current c)) eqn:Hq.
  - exists c. unfold set_current. rewrite Hstep, Hget, Hq. cbn [Z.eqb Pos.eqb negb].
    apply Qeq_bool_eq in Hq. split; [exact Hget|]. split; [now symmetry|].
    rewrite Hcap, Hv.
    rewrite (fmul_comp (32 # 10) (32 # 10) (current c) 5);
      [exact H16|reflexivity|now symmetry].
  - rewrite (set_current_write _ _ _ _ Hstep Hget Hq). cbn [cells_data].
    rewrite get_set_same. eexists. split; [reflexivity|].
    cbn [current capacity]. split; [reflexivity|]. rewrite Hv. exact H16.
Qed.

Lemma C2_witness :
  exists c', Py.get "cell_1_lfp" (cells_data (set_current "cell_1_lfp" 5 monitoring))
             = Some c'
             /\ current c' == 5 /\ capacity c' == 16.
Proof.
  refine (proj2 (C2_capacity_follows_current monitoring "cell_1_lfp"
                   (mkCell (32 # 10) 0 25.0 0 (28 # 10) (36 # 10) "lfp")
                   monitoring_reachable _) _ _).
  - left. reflexivity.
  - reflexivity.
  - reflexivity.
Defined.

(** C3. Add Cell with LFP selected stores a cell with voltage 3.2 and the
    range 2.8 to 3.6, with NMC selected one with voltage 3.6 and the range
    3.2 to 4.0; every cell of a reachable session carries the constants of
    its kind, and no handler other than Reset All (which removes the cells)
    changes the kind or the three voltages of a stored cell. *)
Theorem C3_kind_constants (s : Session) :
  reachable s ->
  (step s = 1%Z -> (List.length (cell_types s) < 8)%nat ->
   forall u,
     (exists c,
        Py.get (make_cell_key (S (List.length (cell_types s))) "lfp")
          (cells_data (add_cell "LFP" u s)) = Some c
        /\ type c = "lfp" /\ voltage c = 32 # 10
        /\ min_voltage c = 28 # 10 /\ max_voltage c = 36 # 10)
     /\ (exists c,
           Py.get (make_cell_key (S (List.length (cell_types s))) "nmc")
             (cells_data (add_cell "NMC" u s)) = Some c
           /\ type c = "nmc" /\ voltage c = 36 # 10
           /\ min_voltage c = 32 # 10 /\ max_voltage c = 40 # 10))
  /\ (forall k c, In (k, c) (cells_data s) -> kind_constants c)
  /\ (forall e k c,
        widget_ok e -> e <> ResetAll ->
        Py.get k (cells_data s) = Some c ->
        exists c', Py.get k (cells_data (handle e s)) = Some c'
                   /\ type c' = type c /\ voltage c' = voltage c
                   /\ min_voltage c' = min_voltage c
                   /\ max_voltage c' = max_voltage c).
Proof.
  intros Hr. pose proof (reachable_inv _ Hr) as Hinv.
  split; [|split].
  - intros Hstep Hlen u.
    assert (Hen : forall sel, sel <> "Select cell type..." ->
                              add_cell_disabled sel s = false).
    { intros sel Hsel. unfold add_cell_disabled. apply orb_false_iff. split.
      - now apply String.eqb_neq.
      - apply Nat.leb_gt. exact Hlen. }
    split.
    + destruct (add_cell_enabled "LFP" u s) as (c & Hk & _ & _ & _ & ->);
        [simpl; auto|exact Hstep|apply Hen; discriminate|apply (inv_sync _ Hinv)|].
      destruct Hk as [(_ & Ht & Hv & Hmin & Hmax)|(Habs & _)];
        [|discriminate Habs].
      exists c. cbn [cells_data]. rewrite Ht.
      rewrite <- set_fresh by (apply next_key_fresh, (inv_sync _ Hinv)).
      rewrite get_set_same. auto.
    + destruct (add_cell_enabled "NMC" u s) as (c & Hk & _ & _ & _ & ->);
        [simpl; auto|exact Hstep|apply Hen; discriminate|apply (inv_sync _ Hinv)|].
      destruct Hk as [(Habs & _)|(_ & Ht & Hv & Hmin & Hmax)];
        [discriminate Habs|].
      exists c. cbn [cells_data]. rewrite Ht.
      rewrite <- set_fresh by (apply next_key_fresh, (inv_sync _ Hinv)).
      rewrite get_set_same. auto.
  - intros k c Hin.
    now destruct (In_values _ _ _ _ (inv_cells _ Hinv) Hin) as (_ & Hkind & _).
  - intros e k c Hok Hne Hget.
    destruct (handle_keeps_cells e s k c Hinv Hok Hne Hget)
      as (c' & Hget' & Ht & Hv & Hmin & Hmax & _).
    exists c'. auto.
Qed.

Lemma C3_witness :
  exists c,
    Py.get "cell_3_nmc" (cells_data (add_cell "NMC" 30 two_cells)) = Some c
    /\ type c = "nmc" /\ voltage c = 36 # 10
    /\ min_voltage c = 32 # 10 /\ max_voltage c = 40 # 10.
Proof.
  refine (proj2 (proj1 (C3_kind_constants two_cells two_cells_reachable) _ _ 30)).
  - reflexivity.
  - simpl. lia.
Defined.

(** C4. Reset All returns any session to the initial one: no cells, no
    kinds, step 1; so does any run that ends with Reset All. *)
Theorem C4_reset_returns_to_initial (s : Session) (es : list Event) :
  handle ResetAll s = init
  /\ cells_data (handle ResetAll s) = []
  /\ cell_types (handle ResetAll s) = []
  /\ step (handle ResetAll s) = 1%Z
  /\ run (es ++ [ResetAll]) init = init.
Proof.
  repeat split. unfold run. rewrite fold_left_app. reflexivity.
Qed.

(** C5. Neither phase transition touches the cells: Back to Cell Setup and
    Continue to Monitoring Dashboard leave [cells_data] and [cell_types] as
    they are in any session, and from a reachable session in the monitoring
    step, going back and continuing again gives the very same session. *)
Theorem C5_phase_transitions_keep_cells (s : Session) :
  reachable s -> step s = 2%Z ->
  step (back_to_setup s) = 1%Z
  /\ cells_data (back_to_setup s) = cells_data s
  /\ cell_types (back_to_setup s) = cell_types s
  /\ continue_to_monitoring (back_to_setup s) = s
  /\ (forall s0,
        cells_data (back_to_setup s0) = cells_data s0
        /\ cell_types (back_to_setup s0) = cell_types s0
        /\ cells_data (continue_to_monitoring s0) = cells_data s0
        /\ cell_types (continue_to_monitoring s0) = cell_types s0).
Proof.
  intros Hr Hstep. pose proof (reachable_inv _ Hr) as Hinv.
  pose proof (inv_monitor _ Hinv Hstep) as Hne.
  assert (Hback : back_to_setup s =
                  {| cells_data := cells_data s;
                     cell_types := cell_types s;
                     step := 1 |}).
  { unfold back_to_setup. now rewrite Hstep. }
  rewrite Hback. cbn [cells_data cell_types step].
  repeat split.
  - unfold continue_to_monitoring. cbn [cells_data cell_types step Z.eqb Pos.eqb negb].
    destruct s as [d ts st]. cbn [cells_data cell_types step] in *.
    destruct ts as [|t ts]; [contradiction|]. now subst st.
  - unfold back_to_setup. now destruct (negb _).
  - unfold back_to_setup. now destruct (negb _).
  - unfold continue_to_monitoring. destruct (negb _); [reflexivity|].
    destruct (cell_types s0) eqn:E; reflexivity.
  - unfold continue_to_monitoring. destruct (negb _); [reflexivity|].
    destruct (cell_types s0) eqn:E; cbn [cell_types]; congruence.
Qed.

Lemma C5_witness :
  continue_to_monitoring (back_to_setup monitoring) = monitoring.
Proof.
  refine (proj1 (proj2 (proj2 (proj2
    (C5_phase_transitions_keep_cells monitoring monitoring_reachable _))))).
  reflexivity.
Defined.

(** C6. Setting the current of a cell twice to the same value gives the
    same session as setting it once, and setting it to the value the cell
    already has changes nothing. *)
Theorem C6_set_current_idempotent (cell_key : string) (v : Q) (s : Session) :
  set_current cell_key v (set_current cell_key v s) = set_current cell_key v s
  /\ (forall cell,
        Py.get cell_key (cells_data s) = Some cell ->
        v == current cell ->
        set_current cell_key v s = s).
Proof.
  split.
  - destruct (set_current_cases cell_key v s)
      as [Heq|(cell & Hstep & Hget & Hq)].
    + now rewrite !Heq.
    + rewrite (set_current_write _ _ _ _ Hstep Hget Hq).
      unfold set_current at 1. cbn [cells_data cell_types step].
      rewrite Hstep, get_set_same. cbn [Z.eqb Pos.eqb negb current].
      now rewrite Qeq_bool_refl.
  - intros cell Hget Hv. unfold set_current. rewrite Hget.
    apply Qeq_bool_iff in Hv. rewrite Hv. now destruct (negb _).
Qed.

Lemma C6_witness :
  set_current "cell_1_lfp" 0 monitoring = monitoring.
Proof.
  refine (proj2 (C6_set_current_idempotent "cell_1_lfp" 0 monitoring)
            (mkCell (32 # 10) 0 25.0 0 (28 # 10) (36 # 10) "lfp") _ _).
  - reflexivity.
  - reflexivity.
Defined.

(** C7, as the code has it.  The temperature of a new cell is the draw
    rounded to one decimal; with draws from [[25, 40)] every cell of a
    reachable session has a temperature between 25 and 40, both included;
    and no handler other than Reset All (which removes the cells) changes
    the temperature of a stored cell. *)
Theorem C7_temperature_closed_range (s : Session) :
  reachable s ->
  (forall k c, In (k, c) (cells_data s) -> 25 <= temp c /\ temp c <= 40)
  /\ (forall selected_type u,
        In selected_type cell_type_options -> step s = 1%Z ->
        add_cell_disabled selected_type s = false ->
        exists c,
          Py.get (make_cell_key (S (List.length (cell_types s)))
                    (Py.lower selected_type))
            (cells_data (add_cell selected_type u s)) = Some c
          /\ temp c = Py.round u 1)
  /\ (forall e k c,
        widget_ok e -> e <> ResetAll ->
        Py.get k (cells_data s) = Some c ->
        exists c', Py.get k (cells_data (handle e s)) = Some c'
                   /\ temp c' = temp c).
Proof.
  intros Hr. pose proof (reachable_inv _ Hr) as Hinv.
  split; [|split].
  - intros k c Hin.
    now destruct (In_values _ _ _ _ (inv_cells _ Hinv) Hin) as (_ & _ & Ht).
  - intros sel u Hin Hstep Hen.
    destruct (add_cell_enabled sel u s Hin Hstep Hen (inv_sync _ Hinv))
      as (c & Hk & _ & _ & Ht & ->).
    assert (Hty : Py.lower sel = type c).
    { destruct Hk as [(-> & -> & _)|(-> & -> & _)]; reflexivity. }
    exists c. cbn [cells_data]. rewrite Hty.
    rewrite <- set_fresh by (apply next_key_fresh, (inv_sync _ Hinv)).
    now rewrite get_set_same.
  - intros e k c Hok Hne Hget.
    destruct (handle_keeps_cells e s k c Hinv Hok Hne Hget)
      as (c' & Hget' & _ & _ & _ & _ & Ht).
    exists c'. auto.
Qed.

Lemma C7_witness :
  25 <= Py.round (3996 # 100) 1 /\ Py.round (3996 # 100) 1 <= 40.
Proof.
  refine (proj1 (C7_temperature_closed_range two_cells two_cells_reachable)
            "cell_2_nmc"
            (mkCell (36 # 10) 0 (Py.round (3996 # 100) 1) 0
               (32 # 10) (40 # 10) "nmc") _).
  right. left. reflexivity.
Defined.

(** C7, as stated, fails: the draw 39.96 is in [[25, 40)], and the cell
    created from it has temperature 40.0, which is not below 40. *)
Lemma C7_counterexample :
  widget_ok (AddCell "LFP" (3996 # 100))
  /\ reachable (handle (AddCell "LFP" (3996 # 100)) init)
  /\ exists c,
       Py.get "cell_1_lfp"
         (cells_data (handle (AddCell "LFP" (3996 # 100)) init)) = Some c
       /\ temp c == 40
       /\ ~ temp c < 40.
Proof.
  assert (Hok : widget_ok (AddCell "LFP" (3996 # 100))).
  { apply add_lfp_ok; unfold Qle, Qlt; simpl; lia. }
  split; [exact Hok|]. split; [constructor; [constructor|exact Hok]|].
  eexists. split; [reflexivity|]. cbn [temp]. split.
  - reflexivity.
  - unfold Qlt. simpl. lia.
Qed.



(** C9. Continue to Monitoring Dashboard is available exactly when there is
    at least one cell, whatever their number: every reachable session in
    step 2 has cells, from step 1 the handler sets step 2 when there are
    cells, and does nothing when there are none. *)
Theorem C9_continue_needs_a_cell (s : Session) :
  reachable s ->
  (step s = 2%Z -> cells_data s <> [] /\ cell_types s <> [])
  /\ (step s = 1%Z -> cells_data s <> [] ->
      step (continue_to_monitoring s) = 2%Z)
  /\ (step s = 1%Z -> cells_data s = [] ->
      continue_to_monitoring s = s /\ step (continue_to_monitoring s) = 1%Z).
Proof.
  intros Hr. pose proof (reachable_inv _ Hr) as Hinv.
  pose proof (inv_same_length _ Hinv) as Hlen.
  split; [|split].
  - intros Hstep. pose proof (inv_monitor _ Hinv Hstep) as Hne.
    split; [|exact Hne]. intros Hd. rewrite Hd in Hlen.
    destruct (cell_types s); [contradiction|discriminate Hlen].
  - intros Hstep Hd. unfold continue_to_monitoring. rewrite Hstep.
    cbn [Z.eqb Pos.eqb negb].
    destruct (cell_types s) as [|t ts] eqn:E; [|reflexivity].
    destruct (cells_data s); [contradiction|discriminate Hlen].
  - intros Hstep Hd. unfold continue_to_monitoring. rewrite Hstep.
    cbn [Z.eqb Pos.eqb negb]. rewrite Hd in Hlen.
    destruct (cell_types s) as [|t ts] eqn:E; [auto|discriminate Hlen].
Qed.

Lemma C9_witness :
  step (continue_to_monitoring two_cells) = 2%Z.
Proof.
  refine (proj1 (proj2 (C9_continue_needs_a_cell two_cells two_cells_reachable))
            _ _).
  - reflexivity.
  - discriminate.
Defined.

(** C10. In every reachable session the list of kinds and the dictionary
    of cells have the same length, the keys of the dictionary are pairwise
    distinct, the [i]-th item of the dictionary is stored under
    [cell_{i+1}_{kind}] and its kind is the [i]-th entry of the list; an
    enabled Add Cell makes the dictionary one item longer and keeps every
    cell that was there. *)
Theorem C10_structures_in_step (s : Session) :
  reachable s ->
  List.length (cells_data s) = List.length (cell_types s)
  /\ NoDup (Py.keys (cells_data s))
  /\ (forall i k c,
        nth_error (cells_data s) i = Some (k, c) ->
        k = make_cell_key (S i) (type c)
        /\ nth_error (cell_types s) i = Some (type c))
  /\ (forall selected_type u,
        In selected_type cell_type_options -> step s = 1%Z ->
        add_cell_disabled selected_type s = false ->
        List.length (cells_data (add_cell selected_type u s))
        = S (List.length (cells_data s))
        /\ List.length (cell_types (add_cell selected_type u s))
           = S (List.length (cell_types s))
        /\ forall k c, Py.get k (cells_data s) = Some c ->
                       Py.get k (cells_data (add_cell selected_type u s))
                       = Some c).
Proof.
  intros Hr. pose proof (reachable_inv _ Hr) as Hinv.
  split; [now apply inv_same_length|].
  split; [now apply inv_NoDup|]. split.
  - intros i k c Hnth.
    apply (map_nth_error key_and_type) in Hnth.
    rewrite (inv_sync _ Hinv) in Hnth. cbn [key_and_type fst snd] in Hnth.
    now apply keyed_nth in Hnth.
  - intros sel u Hin Hstep Hen.
    destruct (add_cell_enabled sel u s Hin Hstep Hen (inv_sync _ Hinv))
      as (c0 & _ & _ & _ & _ & ->).
    cbn [cells_data cell_types]. rewrite !last_length.
    repeat split. intros k c Hget. now apply get_app_Some.
Qed.

Lemma C10_witness :
  List.length (cells_data two_cells) = List.length (cell_types two_cells).
Proof.
  exact (proj1 (C10_structures_in_step two_cells two_cells_reachable)).
Defined.

(** * More of the script: the views *)

(** ** Battery level *)

Lemma battery_level_cases (cell : Cell) :
  (capacity cell <= 0 /\ battery_level cell = 0)
  \/ (0 < capacity cell /\ capacity cell < 10
      /\ battery_level cell = capacity cell / 10 * 100)
  \/ (10 <= capacity cell /\ battery_level cell = 100).
Proof.
  unfold battery_level, py_min.
  assert (Hx : capacity cell / 10 * 100 == capacity cell * 10) by field.
  destruct (Qle_bool (capacity cell) 0) eqn:H0; cbn [negb].
  - left. apply Qle_bool_iff in H0. auto.
  - right.
    assert (Hpos : 0 < capacity cell).
    { apply Qnot_le_lt. intros H. apply Qle_bool_iff in H. congruence. }
    destruct (Qle_bool 100 (capacity cell / 10 * 100)) eqn:H1.
    + right. apply Qle_bool_iff in H1. rewrite Hx in H1. split; [lra|reflexivity].
    + left. split; [exact Hpos|]. split; [|reflexivity].
      apply Qnot_le_lt. intros H.
      assert (H' : 100 <= capacity cell / 10 * 100) by (rewrite Hx; lra).
      apply Qle_bool_iff in H'. congruence.
Qed.

(** X1. Whatever the capacity of a cell, its battery level is between 0 and
    100, so the value given to the progress bar is between 0 and 1. *)
Theorem X1_battery_level_bounds (cell : Cell) :
  0 <= battery_level cell /\ battery_level cell <= 100
  /\ 0 <= battery_progress cell /\ battery_progress cell <= 1.
Proof.
  assert (Hx : capacity cell / 10 * 100 == capacity cell * 10) by field.
  assert (Hp : battery_progress cell == battery_level cell * (1 # 100)).
  { unfold battery_progress. field. }
  rewrite Hp.
  destruct (battery_level_cases cell)
    as [(_ & ->)|[(Hlo & Hhi & ->)|(_ & ->)]];
    rewrite ?Hx; repeat split; lra.
Qed.

(** X2. The battery level grows with the capacity, is 0 exactly for a
    capacity of 0 or less, and is 100 exactly from a capacity of 10 on. *)
Theorem X2_battery_level_monotone (c1 c2 : Cell) :
  (capacity c1 <= capacity c2 -> battery_level c1 <= battery_level c2)
  /\ (battery_level c1 == 0 <-> capacity c1 <= 0)
  /\ (battery_level c1 == 100 <-> 10 <= capacity c1).
Proof.
  assert (Hx : forall c, capacity c / 10 * 100 == capacity c * 10)
    by (intros c; field).
  split; [|split].
  - intros Hle.
    destruct (battery_level_cases c1)
      as [(H1 & ->)|[(H1 & H1' & ->)|(H1 & ->)]];
      destruct (battery_level_cases c2)
        as [(H2 & ->)|[(H2 & H2' & ->)|(H2 & ->)]];
      rewrite ?Hx; lra.
  - destruct (battery_level_cases c1)
      as [(H1 & ->)|[(H1 & H1' & ->)|(H1 & ->)]]; rewrite ?Hx; split; intros; lra.
  - destruct (battery_level_cases c1)
      as [(H1 & ->)|[(H1 & H1' & ->)|(H1 & ->)]]; rewrite ?Hx; split; intros; lra.
Qed.

Lemma X2_witness :
  battery_level (mkCell (32 # 10) 1 25 (32 # 10) (28 # 10) (36 # 10) "lfp")
  <= battery_level (mkCell (32 # 10) 5 25 16 (28 # 10) (36 # 10) "lfp").
Proof.
  refine (proj1 (X2_battery_level_monotone
                   (mkCell (32 # 10) 1 25 (32 # 10) (28 # 10) (36 # 10) "lfp")
                   (mkCell (32 # 10) 5 25 16 (28 # 10) (36 # 10) "lfp")) _).
  cbn [capacity]. unfold Qle. simpl. lia.
Defined.

(** ** The setup page *)

Lemma inject_nat_bounds (n m : nat) :
  (n <= m)%nat -> inject_Z (Z.of_nat n) <= inject_Z (Z.of_nat m).
Proof. intros H. rewrite <- Zle_Qle. lia. Qed.

(** X3. On the setup page of a reachable session the progress bar, which is
    drawn only when there are cells, gets a value between 1/8 and 1, and
    the value is 1 exactly when there are eight cells. *)
Theorem X3_setup_progress_bounds (s : Session) :
  reachable s -> cell_types s <> [] ->
  1 # 8 <= setup_progress s /\ setup_progress s <= 1
  /\ (setup_progress s == 1 <-> List.length (cell_types s) = 8%nat).
Proof.
  intros Hr Hne. pose proof (inv_cap _ (reachable_inv _ Hr)) as Hcap.
  unfold setup_progress.
  set (n := List.length (cell_types s)) in *.
  assert (Hn : (1 <= n)%nat).
  { subst n. destruct (cell_types s); [contradiction|simpl; lia]. }
  assert (Hq : inject_Z (Z.of_nat n) / 8 == inject_Z (Z.of_nat n) * (1 # 8))
    by field.
  pose proof (inject_nat_bounds _ _ Hn) as H1.
  pose proof (inject_nat_bounds _ _ Hcap) as H8.
  change (inject_Z (Z.of_nat 1)) with 1 in H1.
  change (inject_Z (Z.of_nat 8)) with 8 in H8.
  rewrite Hq. split; [lra|]. split; [lra|]. split.
  - intros H. assert (H' : inject_Z (Z.of_nat n) == inject_Z 8) by
      (change (inject_Z 8) with 8; lra).
    apply Nat2Z.inj. exact (proj1 (inject_Z_injective _ _) H').
  - intros ->. reflexivity.
Qed.

Lemma X3_witness :
  1 # 8 <= setup_progress two_cells /\ setup_progress two_cells <= 1
  /\ (setup_progress two_cells == 1
      <-> List.length (cell_types two_cells) = 8%nat).
Proof.
  apply (X3_setup_progress_bounds two_cells two_cells_reachable).
  discriminate.
Defined.

(** X4. When the setup page shows the cards (there is at least one kind in
    the list), it asks for between one and four columns, and every card
    goes to a column that exists. *)
Theorem X4_setup_columns_in_range (s : Session) :
  cell_types s <> [] ->
  (1 <= setup_columns s <= 4)%nat
  /\ (forall idx, (idx < List.length (cell_types s))%nat ->
                  (setup_column_of idx < setup_columns s)%nat).
Proof.
  intros Hne. unfold setup_columns, setup_column_of.
  assert (Hn : (1 <= List.length (cell_types s))%nat).
  { destruct (cell_types s); [contradiction|simpl; lia]. }
  split; [lia|]. intros idx Hidx.
  pose proof (Nat.mod_upper_bound idx 4 ltac:(lia)) as H4.
  pose proof (Nat.Div0.mod_le idx 4) as Hle.
  lia.
Qed.

Lemma X4_witness :
  (1 <= setup_columns two_cells <= 4)%nat
  /\ (setup_column_of 1 < setup_columns two_cells)%nat.
Proof.
  split.
  - refine (proj1 (X4_setup_columns_in_range two_cells _)). discriminate.
  - refine (proj2 (X4_setup_columns_in_range two_cells _) 1%nat _).
    + discriminate.
    + simpl. lia.
Defined.

(** ** The monitoring page *)

(** X5. The monitoring page does not check that there are cells before it
    asks for columns; in a reachable session it is shown only with at least
    one cell, so it asks for between one and three columns, and every cell
    control goes to a column that exists. *)
Theorem X5_monitor_columns_in_range (s : Session) :
  reachable s -> step s = 2%Z ->
  (1 <= monitor_columns s <= 3)%nat
  /\ (forall idx, (idx < List.length (Py.keys (cells_data s)))%nat ->
                  (monitor_column_of idx < monitor_columns s)%nat).
Proof.
  intros Hr Hstep. pose proof (reachable_inv _ Hr) as Hinv.
  pose proof (inv_same_length _ Hinv) as Hlen.
  pose proof (inv_monitor _ Hinv Hstep) as Hne.
  unfold monitor_columns, monitor_column_of, Py.keys. rewrite length_map.
  assert (Hn : (1 <= List.length (cells_data s))%nat).
  { rewrite Hlen. destruct (cell_types s); [contradiction|simpl; lia]. }
  split; [lia|]. intros idx Hidx.
  pose proof (Nat.mod_upper_bound idx 3 ltac:(lia)) as H3.
  pose proof (Nat.Div0.mod_le idx 3) as Hle.
  lia.
Qed.

Lemma X5_witness :
  (1 <= monitor_columns monitoring <= 3)%nat
  /\ (monitor_column_of 1 < monitor_columns monitoring)%nat.
Proof.
  split.
  - refine (proj1 (X5_monitor_columns_in_range monitoring
                     monitoring_reachable _)). reflexivity.
  - refine (proj2 (X5_monitor_columns_in_range monitoring
                     monitoring_reachable _) 1%nat _).
    + reflexivity.
    + simpl. lia.
Defined.

(** ** Currents and capacities *)

Lemma continue_cells_data (s : Session) :
  cells_data (continue_to_monitoring s) = cells_data s.
Proof.
  unfold continue_to_monitoring. destruct (negb _); [reflexivity|].
  now destruct (cell_types s).
Qed.

Lemma back_cells_data (s : Session) :
  cells_data (back_to_setup s) = cells_data s.
Proof. unfold back_to_setup. now destruct (negb _). Qed.

Lemma reachable_current_range (s : Session) :
  reachable s -> Forall current_in_range (Py.values (cells_data s)).
Proof.
  induction 1 as [|e s Hr IH Hok]; [constructor|].
  pose proof (reachable_inv _ Hr) as Hinv.
  destruct e as [|selected_type u| | |cell_key v]; cbn [handle].
  - constructor.
  - destruct Hok as (Hin & _).
    destruct (Z.eq_dec (step s) 1) as [Hstep|Hstep];
      [|now rewrite add_cell_noop_step].
    destruct (add_cell_disabled selected_type s) eqn:Hen;
      [now rewrite add_cell_noop_disabled|].
    destruct (add_cell_enabled _ u _ Hin Hstep Hen (inv_sync _ Hinv))
      as (c & _ & Hcur & _ & _ & ->).
    cbn [cells_data]. unfold Py.values. rewrite map_app.
    apply Forall_app. split; [exact IH|].
    constructor; [|constructor]. cbn [snd]. unfold current_in_range.
    rewrite Hcur. split; lra.
  - now rewrite continue_cells_data.
  - now rewrite back_cells_data.
  - destruct (set_current_cases cell_key v s)
      as [->|(cell & Hstep & Hget & Hne)]; [exact IH|].
    rewrite (set_current_write _ _ _ _ Hstep Hget Hne). cbn [cells_data].
    apply set_values_Forall; [exact IH|]. exact Hok.
Qed.

(** The nearest integer is at most one half away. *)
Lemma round_half_even_error (q : Q) :
  inject_Z (Py.round_half_even q) - (1 # 2) <= q
  /\ q <= inject_Z (Py.round_half_even q) + (1 # 2).
Proof.
  destruct q as [n d]. unfold Py.round_half_even. cbn [Qnum Qden].
  pose proof (Z.div_mod n (Zpos d) ltac:(lia)) as Hdm.
  pose proof (Z.mod_pos_bound n (Zpos d) ltac:(lia)) as Hr.
  set (f := (n / Zpos d)%Z) in *. set (r := (n mod Zpos d)%Z) in *.
  assert (Hgoal : forall z : Z,
             ((2 * z - 1) * Zpos d <= 2 * n)%Z ->
             (2 * n <= (2 * z + 1) * Zpos d)%Z ->
             inject_Z z - (1 # 2) <= n # d /\ n # d <= inject_Z z + (1 # 2)).
  { intros z H1 H2. unfold Qle, Qminus, Qplus, Qopp, inject_Z.
    cbn [Qnum Qden]. split; lia. }
  destruct (Z.compare_spec (2 * r) (Zpos d)) as [He|Hl|Hg].
  - destruct (Z.even f); apply Hgoal; nia.
  - apply Hgoal; nia.
  - apply Hgoal; nia.
Qed.

(** Rounding keeps a number between two integer bounds. *)
Lemma round_bounds (x : Q) (a b : Z) (ndigits : nat) :
  inject_Z a <= x -> x <= inject_Z b ->
  inject_Z a <= Py.round x ndigits /\ Py.round x ndigits <= inject_Z b.
Proof.
  intros Ha Hb. unfold Py.round.
  set (p := Py.pow10 ndigits).
  assert (H : (a * Zpos p <= Py.round_half_even (x * (Zpos p # 1))
               <= b * Zpos p)%Z).
  { apply round_half_even_bounds.
    - destruct x as [n d]. unfold Qle, Qmult, inject_Z in *.
      cbn [Qnum Qden] in *. nia.
    - destruct x as [n d]. unfold Qle, Qmult, inject_Z in *.
      cbn [Qnum Qden] in *. nia. }
  unfold Qle, inject_Z. cbn [Qnum Qden]. lia.
Qed.

(** *** Binary64 rounding *)

Lemma pow2_pos (z : Z) : 0 < 2 ^ z.
Proof. apply Qpower_0_lt. reflexivity. Qed.

Lemma binade_lower (q : Q) : 0 < q -> 2 ^ Py.binade q <= q.
Proof.
  intros Hq. unfold Py.binade.
  set (A := Z.log2 (Qnum q)). set (B := Z.log2 (Zpos (Qden q))).
  destruct (Qle_bool (2 ^ (A - B)) q) eqn:Hb; [now apply Qle_bool_iff|].
  assert (Hn : (0 < Qnum q)%Z).
  { destruct q as [n d]. unfold Qlt in Hq. cbn [Qnum Qden] in *. lia. }
  destruct (Z.log2_spec (Qnum q) Hn) as [HA _]. fold A in HA.
  destruct (Z.log2_spec (Zpos (Qden q)) ltac:(lia)) as [_ HB]. fold B in HB.
  pose proof (Z.log2_nonneg (Qnum q)) as HA0. fold A in HA0.
  pose proof (Z.log2_nonneg (Zpos (Qden q))) as HB0. fold B in HB0.
  replace (A - B - 1)%Z with (A + - Z.succ B)%Z by lia.
  rewrite Qpower_plus by discriminate. rewrite Qpower_opp.
  rewrite <- (Zpower_Qpower 2 A HA0).
  rewrite <- (Zpower_Qpower 2 (Z.succ B)) by lia.
  assert (HP : (0 < 2 ^ Z.succ B)%Z) by lia.
  apply Qle_shift_div_r.
  - change 0 with (inject_Z 0). now rewrite <- Zlt_Qlt.
  - destruct q as [n d]. unfold Qle, Qmult, inject_Z. cbn [Qnum Qden] in *.
    nia.
Qed.

Lemma binade_upper (q : Q) : 0 < q -> q < 2 ^ (Py.binade q + 1).
Proof.
  intros Hq. unfold Py.binade.
  set (A := Z.log2 (Qnum q)). set (B := Z.log2 (Zpos (Qden q))).
  destruct (Qle_bool (2 ^ (A - B)) q) eqn:Hb.
  2:{ replace (A - B - 1 + 1)%Z with (A - B)%Z by lia.
      apply Qnot_le_lt. intros H. apply Qle_bool_iff in H. congruence. }
  assert (Hn : (0 < Qnum q)%Z).
  { destruct q as [n d]. unfold Qlt in Hq. cbn [Qnum Qden] in *. lia. }
  destruct (Z.log2_spec (Qnum q) Hn) as [_ HA]. fold A in HA.
  destruct (Z.log2_spec (Zpos (Qden q)) ltac:(lia)) as [HB _]. fold B in HB.
  pose proof (Z.log2_nonneg (Qnum q)) as HA0. fold A in HA0.
  pose proof (Z.log2_nonneg (Zpos (Qden q))) as HB0. fold B in HB0.
  replace (A - B + 1)%Z with (Z.succ A + - B)%Z by lia.
  rewrite Qpower_plus by discriminate. rewrite Qpower_opp.
  rewrite <- (Zpower_Qpower 2 (Z.succ A)) by lia.
  rewrite <- (Zpower_Qpower 2 B HB0).
  assert (HP : (0 < 2 ^ B)%Z) by lia.
  apply Qlt_shift_div_l.
  - change 0 with (inject_Z 0). now rewrite <- Zlt_Qlt.
  - destruct q as [n d]. unfold Qlt, Qmult, inject_Z. cbn [Qnum Qden] in *.
    nia.
Qed.

(** The nearest binary64 number is not negative and exceeds the rational
    by at most one unit in the last place. *)
Lemma fl_pos_bounds (q : Q) :
  0 < q ->
  0 <= Py.fl_pos q /\ Py.fl_pos q <= q + q * 2 ^ (-52) + 2 ^ (-1074).
Proof.
  intros Hq. unfold Py.fl_pos.
  set (e := Z.max (Py.binade q) (-1022)).
  set (ulp := 2 ^ (e - 52)).
  assert (Hulp : 0 < ulp) by apply pow2_pos.
  assert (Hsmall : ulp <= q * 2 ^ (-52) + 2 ^ (-1074)).
  { pose proof (pow2_pos (-52)) as H52. pose proof (pow2_pos (-1074)) as H74.
    destruct (Z.max_spec (Py.binade q) (-1022)) as [[_ He]|[_ He]];
      subst ulp e; rewrite He.
    - change (2 ^ (-1022 - 52)) with (2 ^ (-1074)). nra.
    - replace (Py.binade q - 52)%Z with (Py.binade q + -52)%Z by lia.
      rewrite Qpower_plus by discriminate.
      pose proof (binade_lower q Hq) as Hb. nra. }
  destruct (round_half_even_error (q / ulp)) as [H1 H2].
  set (r := inject_Z (Py.round_half_even (q / ulp))) in *.
  assert (Hdiv : q / ulp * ulp == q) by (field; lra).
  assert (Hr0 : 0 <= r).
  { subst r. assert (Hd : 0 <= q / ulp).
    { apply Qle_shift_div_l; [exact Hulp|]. lra. }
    assert (Hz : (0 <= Py.round_half_even (q / ulp))%Z).
    { apply Z.lt_succ_r. unfold Z.succ. rewrite Zlt_Qlt, inject_Z_plus.
      change (inject_Z 0) with 0. change (inject_Z 1) with 1. lra. }
    rewrite Zle_Qle in Hz. exact Hz. }
  split; [nra|].
  assert (Hru : r * ulp <= q + (1 # 2) * ulp) by nra.
  lra.
Qed.

Lemma fl_nonneg (x : Q) :
  0 <= x ->
  0 <= Py.fl x /\ Py.fl x <= x + x * 2 ^ (-52) + 2 ^ (-1074).
Proof.
  intros Hx. unfold Py.fl.
  pose proof (Qred_correct x) as Hred.
  pose proof (pow2_pos (-52)) as H52. pose proof (pow2_pos (-1074)) as H74.
  destruct (Qnum (Qred x)) eqn:En.
  - split; [lra|]. nra.
  - assert (Hq : 0 < Qred x).
    { unfold Qlt. cbn [Qnum Qden]. rewrite En. lia. }
    destruct (fl_pos_bounds _ Hq) as [H1 H2].
    rewrite Hred in H2 at 2 3. split; [exact H1|exact H2].
  - exfalso. assert (Hq : Qred x < 0).
    { unfold Qlt. cbn [Qnum Qden]. rewrite En. lia. }
    lra.
Qed.

Lemma round_half_even_below (q : Q) (b : Z) :
  q < inject_Z b + (1 # 2) -> (Py.round_half_even q <= b)%Z.
Proof.
  intros H. destruct (round_half_even_error q) as [H1 _].
  apply Z.lt_succ_r. unfold Z.succ. rewrite Zlt_Qlt, inject_Z_plus.
  change (inject_Z 1) with 1. lra.
Qed.

(** The float product of a voltage of at most 3.6 and a current of at most
    100 is barely above 360. *)
Lemma fmul_bounds (v c : Q) :
  0 <= v -> v <= 36 # 10 -> 0 <= c -> c <= 100 ->
  0 <= Py.fmul v c /\ Py.fmul v c <= 3600001 # 10000.
Proof.
  intros Hv0 Hv1 Hc0 Hc1. unfold Py.fmul.
  assert (E52 : 2 ^ (-52) <= 1 # 1000000000) by
    (apply Qle_bool_iff; vm_compute; reflexivity).
  assert (E74 : 2 ^ (-1074) <= 1 # 1000000000) by
    (apply Qle_bool_iff; vm_compute; reflexivity).
  pose proof (pow2_pos (-52)) as H52. pose proof (pow2_pos (-1074)) as H74.
  set (a := 2 ^ (-52)) in *. set (b := 2 ^ (-1074)) in *.
  destruct (fl_nonneg v Hv0) as [Hfv0 Hfv1].
  destruct (fl_nonneg c Hc0) as [Hfc0 Hfc1].
  fold a b in Hfv1, Hfc1.
  assert (Hp0 : 0 <= Py.fl v * Py.fl c) by nra.
  destruct (fl_nonneg _ Hp0) as [Hf0 Hf1]. fold a b in Hf1.
  split; [exact Hf0|].
  assert (Hfv : Py.fl v <= 36000001 # 10000000) by nra.
  assert (Hfc : Py.fl c <= 1000000002 # 10000000) by nra.
  assert (Hp : Py.fl v * Py.fl c <= 3600000461 # 10000000) by nra.
  nra.
Qed.

Lemma round2_fmul_bounds (v c : Q) :
  0 <= v -> v <= 36 # 10 -> 0 <= c -> c <= 100 ->
  0 <= Py.round (Py.fmul v c) 2 /\ Py.round (Py.fmul v c) 2 <= 360.
Proof.
  intros Hv0 Hv1 Hc0 Hc1.
  destruct (fmul_bounds v c Hv0 Hv1 Hc0 Hc1) as [H0 H1].
  unfold Py.round. set (x := Py.fmul v c) in *.
  assert (Hlo : (0 <= Py.round_half_even (x * (Zpos (Py.pow10 2) # 1)))%Z).
  { apply Z.lt_succ_r. unfold Z.succ.
    destruct (round_half_even_error (x * (Zpos (Py.pow10 2) # 1))) as [_ He].
    rewrite Zlt_Qlt, inject_Z_plus.
    change (inject_Z 0) with 0. change (inject_Z 1) with 1.
    change (Zpos (Py.pow10 2) # 1) with 100 in *. lra. }
  assert (Hhi : (Py.round_half_even (x * (Zpos (Py.pow10 2) # 1)) <= 36000)%Z).
  { apply round_half_even_below.
    change (Zpos (Py.pow10 2) # 1) with 100. change (inject_Z 36000) with 36000.
    lra. }
  unfold Qle. cbn [Qnum Qden Py.pow10] in *. lia.
Qed.

(** The values the script stores for three currents whose exact product
    with the voltage is at, or next to, a tie of the rounding. *)
Lemma fmul_round_examples :
  Py.round (Py.fmul (36 # 10) (625 # 10000)) 2 == 23 # 100
  /\ Py.round (Py.fmul (32 # 10) (1 # 128)) 2 == 3 # 100
  /\ Py.round
       (Py.fmul (36 # 10) (15277777777777777 # 1000000000000000000)) 2
     == 6 # 100
  /\ Py.fl (1 # 10) == 3602879701896397 # 36028797018963968.
Proof. repeat split; vm_compute; reflexivity. Qed.

Lemma cell_bounds (s : Session) (k : string) (c : Cell) :
  reachable s -> In (k, c) (cells_data s) ->
  0 <= current c /\ current c <= 100
  /\ 0 <= capacity c /\ capacity c <= 360.
Proof.
  intros Hr Hin. pose proof (reachable_inv _ Hr) as Hinv.
  destruct (In_values _ _ _ _ (reachable_current_range _ Hr) Hin) as [Hlo Hhi].
  destruct (In_values _ _ _ _ (inv_cells _ Hinv) Hin) as (Hcap & Hkind & _).
  split; [exact Hlo|]. split; [exact Hhi|].
  assert (Hv : 0 <= voltage c /\ voltage c <= 36 # 10).
  { destruct Hkind as [(_ & -> & _)|(_ & -> & _)]; split; lra. }
  rewrite Hcap. apply round2_fmul_bounds; tauto.
Qed.

(** X6. In every reachable session the current of every cell is between 0
    and 100, as the number input delivers it, and the capacity of every
    cell is between 0 and 360. *)
Theorem X6_current_and_capacity_bounds (s : Session) (k : string) (c : Cell) :
  reachable s -> In (k, c) (cells_data s) ->
  0 <= current c /\ current c <= 100
  /\ 0 <= capacity c /\ capacity c <= 360.
Proof. exact (cell_bounds s k c). Qed.

Lemma charged_reachable : reachable charged.
Proof.
  apply run_reachable; [exact monitoring_reachable|].
  repeat constructor; unfold Qle; simpl; lia.
Qed.

Lemma X6_witness :
  Py.get "cell_1_lfp" (cells_data charged)
  = Some (mkCell (32 # 10) 5 25.0 16.00 (28 # 10) (36 # 10) "lfp")
  /\ 0 <= 5 /\ 5 <= 100 /\ 0 <= 16.00 /\ 16.00 <= 360.
Proof.
  split; [reflexivity|].
  refine (X6_current_and_capacity_bounds charged "cell_1_lfp"
            (mkCell (32 # 10) 5 25.0 16.00 (28 # 10) (36 # 10) "lfp")
            charged_reachable _).
  left. reflexivity.
Defined.

(** ** Quick Stats *)

Lemma inject_nat_succ (n : nat) :
  inject_Z (Z.of_nat (S n)) == inject_Z (Z.of_nat n) + 1.
Proof. rewrite Nat2Z.inj_succ. unfold Z.succ. now rewrite inject_Z_plus. Qed.

Lemma fold_sum_bounds (a b : Q) (xs : list Q) (acc lo hi : Q) :
  Forall (fun x => a <= x /\ x <= b) xs ->
  lo <= acc -> acc <= hi ->
  lo + inject_Z (Z.of_nat (List.length xs)) * a <= fold_left Qplus xs acc
  /\ fold_left Qplus xs acc <= hi + inject_Z (Z.of_nat (List.length xs)) * b.
Proof.
  intros HF. revert acc lo hi.
  induction HF as [|x xs [Hxa Hxb] _ IH]; intros acc lo hi Hlo Hhi.
  - cbn [fold_left List.length]. change (inject_Z (Z.of_nat 0)) with 0.
    split; lra.
  - cbn [fold_left List.length]. rewrite inject_nat_succ.
    destruct (IH (acc + x) (lo + a) (hi + b)) as [H1 H2]; [lra|lra|].
    split; lra.
Qed.

Lemma sum_bounds (a b : Q) (xs : list Q) :
  Forall (fun x => a <= x /\ x <= b) xs ->
  inject_Z (Z.of_nat (List.length xs)) * a <= Py.sum xs
  /\ Py.sum xs <= inject_Z (Z.of_nat (List.length xs)) * b.
Proof.
  intros HF. unfold Py.sum.
  destruct (fold_sum_bounds a b xs 0 0 0 HF) as [H1 H2]; [lra|lra|].
  split; lra.
Qed.

Lemma mean_bounds (a b : Q) (xs : list Q) :
  xs <> [] ->
  Forall (fun x => a <= x /\ x <= b) xs ->
  a <= Py.mean xs /\ Py.mean xs <= b.
Proof.
  intros Hne HF. destruct (sum_bounds a b xs HF) as [H1 H2].
  unfold Py.mean.
  assert (Hn : 0 < inject_Z (Z.of_nat (List.length xs))).
  { destruct xs; [contradiction|]. cbn [List.length].
    rewrite inject_nat_succ.
    pose proof (inject_nat_bounds 0 (List.length xs) ltac:(lia)) as H0.
    change (inject_Z (Z.of_nat 0)) with 0 in H0. lra. }
  split.
  - apply Qle_shift_div_l; [exact Hn|]. lra.
  - apply Qle_shift_div_r; [exact Hn|]. lra.
Qed.

Lemma Forall_values_map {A : Type} (P : Cell -> Prop) (Q' : A -> Prop)
      (f : Cell -> A) (d : Py.dict Cell) :
  (forall c, P c -> Q' (f c)) ->
  Forall P (Py.values d) -> Forall Q' (map f (Py.values d)).
Proof.
  intros HPQ HF. apply Forall_map. revert HF. apply Forall_impl. exact HPQ.
Qed.

(** X8. In every reachable session with cells, Quick Stats shows between
    one and eight cells, an average temperature between 25 and 40, and a
    total capacity between 0 and 360 times the number of cells. *)
Theorem X8_quick_stats_ranges (s : Session) :
  reachable s -> cells_data s <> [] ->
  exists total_cells avg_temp total_capacity,
    quick_stats s = Some (total_cells, avg_temp, total_capacity)
    /\ (1 <= total_cells <= 8)%nat
    /\ 25 <= avg_temp /\ avg_temp <= 40
    /\ 0 <= total_capacity
    /\ total_capacity <= 360 * inject_Z (Z.of_nat total_cells).
Proof.
  intros Hr Hne. pose proof (reachable_inv _ Hr) as Hinv.
  pose proof (inv_same_length _ Hinv) as Hlen.
  pose proof (inv_cap _ Hinv) as Hcap.
  assert (Hcaps : Forall (fun x => 0 <= x /\ x <= 360)
                    (map capacity (Py.values (cells_data s)))).
  { apply Forall_map. unfold Py.values. apply Forall_map.
    apply Forall_forall. intros [k c] Hin. cbn [snd].
    destruct (cell_bounds s k c Hr Hin) as (_ & _ & H1 & H2). auto. }
  assert (Htemps : Forall (fun x => 25 <= x /\ x <= 40)
                     (map temp (Py.values (cells_data s)))).
  { apply (Forall_values_map cell_ok); [|exact (inv_cells _ Hinv)].
    intros c (_ & _ & H). exact H. }
  unfold quick_stats.
  destruct (cells_data s) as [|kc d] eqn:E; [contradiction|].
  do 3 eexists. split; [reflexivity|].
  split; [cbn [List.length] in *; lia|].
  assert (Hne' : map temp (Py.values (kc :: d)) <> []) by discriminate.
  destruct (mean_bounds 25 40 _ Hne' Htemps) as [Ha Hb].
  split; [exact Ha|]. split; [exact Hb|].
  destruct (sum_bounds 0 360 _ Hcaps) as [H1 H2].
  unfold Py.values in *. rewrite !length_map in H1, H2.
  split; lra.
Qed.

Lemma X8_witness :
  exists total_cells avg_temp total_capacity,
    quick_stats charged = Some (total_cells, avg_temp, total_capacity)
    /\ (1 <= total_cells <= 8)%nat
    /\ 25 <= avg_temp /\ avg_temp <= 40
    /\ 0 <= total_capacity
    /\ total_capacity <= 360 * inject_Z (Z.of_nat total_cells).
Proof.
  apply (X8_quick_stats_ranges charged charged_reachable). discriminate.
Defined.

(** ** Setting currents *)

Lemma set_current_eq (k : string) (v : Q) (s : Session) :
  set_current k v s =
  if negb (step s =? 2)%Z then s
  else match Py.get k (cells_data s) with
       | None => s
       | Some cell =>
           if negb (Qeq_bool v (current cell)) then
             {| cells_data :=
                  Py.set k
                    (mkCell (voltage cell) v (temp cell)
                       (Py.round (Py.fmul (voltage cell) v) 2)
                       (min_voltage cell) (max_voltage cell) (type cell))
                    (cells_data s);
                cell_types := cell_types s;
                step := step s |}
           else s
       end.
Proof. reflexivity. Qed.

Lemma set_current_noop_missing (k : string) (v : Q) (s : Session) :
  Py.get k (cells_data s) = None -> set_current k v s = s.
Proof. intros H. rewrite set_current_eq, H. now destruct (negb _). Qed.

Lemma set_current_noop_same (k : string) (v : Q) (s : Session) (c : Cell) :
  Py.get k (cells_data s) = Some c -> Qeq_bool v (current c) = true ->
  set_current k v s = s.
Proof. intros H Hq. rewrite set_current_eq, H, Hq. now destruct (negb _). Qed.

Lemma set_current_frame (k : string) (v : Q) (s : Session) :
  step (set_current k v s) = step s
  /\ cell_types (set_current k v s) = cell_types s
  /\ Py.keys (cells_data (set_current k v s)) = Py.keys (cells_data s)
  /\ forall k', k' <> k ->
       Py.get k' (cells_data (set_current k v s)) = Py.get k' (cells_data s).
Proof.
  destruct (set_current_cases k v s) as [->|(cell & Hstep & Hget & Hq)];
    [auto|].
  rewrite (set_current_write _ _ _ _ Hstep Hget Hq).
  cbn [step cell_types cells_data]. repeat split.
  - unfold Py.keys. now apply set_present_map with (v0 := cell).
  - intros k' Hk'. now apply get_set_other.
Qed.

(** X9. Setting the current of a cell of a reachable session on the
    monitoring page: afterwards the cell has that current and, as capacity,
    the float product of its voltage and that current rounded to two
    decimals, its other fields are as before, every other cell is
    as before, and the keys, their order, the list of kinds and the step are
    as before. *)
Theorem X9_set_current_read_back (s : Session) (k : string) (v : Q) (c : Cell) :
  reachable s -> step s = 2%Z -> Py.get k (cells_data s) = Some c ->
  (exists c',
     Py.get k (cells_data (set_current k v s)) = Some c'
     /\ current c' == v
     /\ capacity c' == Py.round (Py.fmul (voltage c) v) 2
     /\ same_fixed_fields c c')
  /\ (forall k', k' <> k ->
        Py.get k' (cells_data (set_current k v s)) = Py.get k' (cells_data s))
  /\ Py.keys (cells_data (set_current k v s)) = Py.keys (cells_data s)
  /\ cell_types (set_current k v s) = cell_types s
  /\ step (set_current k v s) = step s.
Proof.
  intros Hr Hstep Hget. pose proof (reachable_inv _ Hr) as Hinv.
  destruct (set_current_frame k v s) as (Hs & Ht & Hk & Hf).
  split; [|auto].
  rewrite set_current_eq, Hstep, Hget. cbn [Z.eqb Pos.eqb negb].
  destruct (Qeq_bool v (current c)) eqn:Hq; cbn [negb cells_data].
  - exists c. apply Qeq_bool_eq in Hq.
    destruct (In_values _ _ _ _ (inv_cells _ Hinv) (get_In _ _ _ Hget))
      as (Hcap & _).
    split; [exact Hget|]. split; [now symmetry|]. split; [|repeat split].
    rewrite Hcap.
    now rewrite (fmul_comp (voltage c) (voltage c) (current c) v
                   (Qeq_refl _) (Qeq_sym _ _ Hq)).
  - rewrite get_set_same. eexists. split; [reflexivity|].
    cbn [current capacity]. repeat split; reflexivity.
Qed.

Lemma X9_witness :
  exists c',
    Py.get "cell_2_nmc" (cells_data (set_current "cell_2_nmc" 10 monitoring))
    = Some c'
    /\ current c' == 10
    /\ capacity c' == Py.round (Py.fmul (36 # 10) 10) 2
    /\ same_fixed_fields
         (mkCell (36 # 10) 0 40.0 0 (32 # 10) (40 # 10) "nmc") c'.
Proof.
  refine (proj1 (X9_set_current_read_back monitoring "cell_2_nmc" 10
                   (mkCell (36 # 10) 0 40.0 0 (32 # 10) (40 # 10) "nmc")
                   monitoring_reachable _ _)).
  - reflexivity.
  - reflexivity.
Defined.

Lemma set_set_comm {V : Type} (k1 k2 : string) (a b : V) (d : Py.dict V) :
  k1 <> k2 -> Py.get k1 d <> None ->
  Py.set k1 a (Py.set k2 b d) = Py.set k2 b (Py.set k1 a d).
Proof.
  intros Hne. induction d as [|[k' v'] d IH]; cbn [Py.get Py.set];
    [congruence|].
  destruct (String.eqb_spec k' k1) as [->|H1].
  - intros _. destruct (String.eqb_spec k1 k2) as [?|_]; [contradiction|].
    cbn [Py.set]. rewrite String.eqb_refl.
    destruct (String.eqb_spec k1 k2) as [?|_]; [contradiction|reflexivity].
  - intros Hget. destruct (String.eqb_spec k' k2) as [->|H2]; cbn [Py.set].
    + rewrite String.eqb_refl.
      destruct (String.eqb_spec k2 k1) as [?|_]; [congruence|reflexivity].
    + destruct (String.eqb_spec k' k1) as [?|_]; [contradiction|].
      destruct (String.eqb_spec k' k2) as [?|_]; [contradiction|].
      now rewrite IH.
Qed.

(** X10. The currents of two different cells can be set in either order:
    the resulting session is the same. *)
Theorem X10_set_current_commutes (k1 k2 : string) (v1 v2 : Q) (s : Session) :
  k1 <> k2 ->
  set_current k1 v1 (set_current k2 v2 s)
  = set_current k2 v2 (set_current k1 v1 s).
Proof.
  intros Hne.
  destruct (set_current_frame k2 v2 s) as (Hs2 & _ & _ & Hf2).
  destruct (set_current_frame k1 v1 s) as (Hs1 & _ & _ & Hf1).
  rewrite (set_current_eq k1 v1 (set_current k2 v2 s)).
  rewrite (set_current_eq k2 v2 (set_current k1 v1 s)).
  rewrite Hs1, Hs2, (Hf2 k1 Hne), (Hf1 k2 (not_eq_sym Hne)).
  destruct (Z.eqb_spec (step s) 2) as [Hstep|Hstep]; cbn [negb].
  2:{ now rewrite !set_current_noop_step. }
  destruct (Py.get k1 (cells_data s)) as [c1|] eqn:G1;
    destruct (Py.get k2 (cells_data s)) as [c2|] eqn:G2.
  - destruct (Qeq_bool v1 (current c1)) eqn:Q1;
      destruct (Qeq_bool v2 (current c2)) eqn:Q2; cbn [negb].
    + now rewrite (set_current_noop_same _ _ _ _ G1 Q1),
        (set_current_noop_same _ _ _ _ G2 Q2).
    + rewrite (set_current_noop_same _ _ _ _ G1 Q1).
      now rewrite (set_current_write _ _ _ _ Hstep G2 Q2).
    + rewrite (set_current_noop_same _ _ _ _ G2 Q2).
      now rewrite (set_current_write _ _ _ _ Hstep G1 Q1).
    + rewrite (set_current_write _ _ _ _ Hstep G1 Q1).
      rewrite (set_current_write _ _ _ _ Hstep G2 Q2).
      cbn [cells_data cell_types step]. f_equal.
      apply set_set_comm; [exact Hne|congruence].
  - rewrite (set_current_noop_missing _ v2 _ G2).
    destruct (Qeq_bool v1 (current c1)) eqn:Q1; cbn [negb].
    + now rewrite (set_current_noop_same _ _ _ _ G1 Q1).
    + now rewrite (set_current_write _ _ _ _ Hstep G1 Q1).
  - rewrite (set_current_noop_missing _ v1 _ G1).
    destruct (Qeq_bool v2 (current c2)) eqn:Q2; cbn [negb].
    + now rewrite (set_current_noop_same _ _ _ _ G2 Q2).
    + now rewrite (set_current_write _ _ _ _ Hstep G2 Q2).
  - now rewrite (set_current_noop_missing _ v1 _ G1),
      (set_current_noop_missing _ v2 _ G2).
Qed.

Lemma X10_witness :
  set_current "cell_1_lfp" 5 (set_current "cell_2_nmc" 10 monitoring)
  = set_current "cell_2_nmc" 10 (set_current "cell_1_lfp" 5 monitoring).
Proof.
  apply (X10_set_current_commutes "cell_1_lfp" "cell_2_nmc" 5 10 monitoring).
  discriminate.
Defined.

(** ** Phase transitions *)

(** X11. From any session in step 1, Continue followed by Back gives the
    session back; Continue twice is Continue once, and Back twice is Back
    once. *)
Theorem X11_continue_then_back (s : Session) :
  (step s = 1%Z -> back_to_setup (continue_to_monitoring s) = s)
  /\ continue_to_monitoring (continue_to_monitoring s)
     = continue_to_monitoring s
  /\ back_to_setup (back_to_setup s) = back_to_setup s.
Proof.
  destruct s as [d ts st]. unfold continue_to_monitoring, back_to_setup.
  cbn [step cells_data cell_types]. split; [|split].
  - intros ->. cbn [Z.eqb Pos.eqb negb]. destruct ts; reflexivity.
  - destruct (Z.eqb_spec st 1) as [->|H]; cbn [negb].
    + destruct ts; reflexivity.
    + cbn [step]. apply Z.eqb_neq in H. now rewrite H.
  - destruct (Z.eqb_spec st 2) as [->|H]; cbn [negb].
    + reflexivity.
    + cbn [step]. apply Z.eqb_neq in H. now rewrite H.
Qed.

Lemma X11_witness :
  back_to_setup (continue_to_monitoring two_cells) = two_cells.
Proof.
  apply (proj1 (X11_continue_then_back two_cells)). reflexivity.
Defined.

(** ** Adding cells *)

Lemma add_cell_types (selected_type : string) (u : Q) (s : Session) :
  step s = 1%Z ->
  step (add_cell selected_type u s) = 1%Z
  /\ cell_types (add_cell selected_type u s)
     = if add_cell_disabled selected_type s then cell_types s
       else (cell_types s ++ [Py.lower selected_type])%list.
Proof.
  intros Hstep. unfold add_cell. rewrite Hstep. cbn [Z.eqb Pos.eqb negb].
  destruct (add_cell_disabled selected_type s); cbn [step cell_types]; auto.
Qed.

Lemma run_adds_types (adds : list (string * Q)) (s0 : Session) :
  Forall (fun a => fst a = "LFP" \/ fst a = "NMC") adds ->
  step s0 = 1%Z -> (List.length (cell_types s0) <= 8)%nat ->
  step (run (map (fun a => AddCell (fst a) (snd a)) adds) s0) = 1%Z
  /\ cell_types (run (map (fun a => AddCell (fst a) (snd a)) adds) s0)
     = firstn 8 (cell_types s0 ++ map (fun a => Py.lower (fst a)) adds)%list.
Proof.
  intros HF. revert s0.
  induction HF as [|[sel u] adds Hsel _ IH]; intros s0 Hstep Hlen.
  - cbn [map run fold_left]. split; [exact Hstep|].
    rewrite app_nil_r. symmetry. now apply firstn_all2.
  - cbn [map run fold_left handle fst snd] in *.
    destruct (add_cell_types sel u s0 Hstep) as [Hstep1 Htypes1].
    assert (Hdis : add_cell_disabled sel s0
                   = (8 <=? List.length (cell_types s0))%nat).
    { unfold add_cell_disabled. destruct Hsel as [-> | ->]; reflexivity. }
    rewrite Hdis in Htypes1.
    destruct (Nat.leb_spec 8 (List.length (cell_types s0))) as [H8|H8].
    + destruct (IH (add_cell sel u s0) Hstep1) as [Hs Ht];
        [rewrite Htypes1; exact Hlen|].
      split; [exact Hs|]. unfold run in Ht. rewrite Ht, Htypes1.
      rewrite !firstn_app.
      replace (8 - List.length (cell_types s0))%nat with 0%nat by lia.
      reflexivity.
    + destruct (IH (add_cell sel u s0) Hstep1) as [Hs Ht];
        [rewrite Htypes1, last_length; lia|].
      split; [exact Hs|]. unfold run in Ht. rewrite Ht, Htypes1.
      now rewrite <- app_assoc.
Qed.

(** X12. Starting from the initial session, a sequence of Add Cell actions
    with LFP or NMC selected stores the first eight of them and ignores the
    rest: the list of kinds is the first eight selections in lower case, in
    order, the dictionary holds as many cells, and the step stays 1. *)
Theorem X12_adds_from_init (adds : list (string * Q)) :
  Forall (fun a => (fst a = "LFP" \/ fst a = "NMC")
                   /\ 25 <= snd a /\ snd a < 40) adds ->
  cell_types (run (map (fun a => AddCell (fst a) (snd a)) adds) init)
  = firstn 8 (map (fun a => Py.lower (fst a)) adds)
  /\ List.length
       (cells_data (run (map (fun a => AddCell (fst a) (snd a)) adds) init))
     = Nat.min 8 (List.length adds)
  /\ step (run (map (fun a => AddCell (fst a) (snd a)) adds) init) = 1%Z.
Proof.
  intros HF.
  assert (HF1 : Forall (fun a => fst a = "LFP" \/ fst a = "NMC") adds).
  { revert HF. apply Forall_impl. tauto. }
  assert (Hok : Forall widget_ok (map (fun a => AddCell (fst a) (snd a)) adds)).
  { apply Forall_map. revert HF. apply Forall_impl.
    intros [sel u] ([-> | ->] & Hlo & Hhi); cbn [fst snd widget_ok];
      simpl; auto. }
  destruct (run_adds_types adds init HF1 eq_refl) as [Hs Ht];
    [simpl; lia|].
  cbn [init cell_types] in Ht. rewrite app_nil_l in Ht.
  split; [exact Ht|]. split; [|exact Hs].
  rewrite (inv_same_length _ (reachable_inv _
             (run_reachable _ _ reachable_init Hok))).
  unfold run in *. rewrite Ht, length_firstn.
  now rewrite (length_map (fun a : string * Q => Py.lower (fst a)) adds).
Qed.

Lemma X12_witness :
  cell_types (run (map (fun a => AddCell (fst a) (snd a))
                       (repeat ("NMC", 30) 9 ++ [("LFP", 30)])) init)
  = repeat "nmc" 8.
Proof.
  refine (proj1 (X12_adds_from_init (repeat ("NMC", 30) 9 ++ [("LFP", 30)]) _)).
  repeat constructor; cbn [fst snd]; auto; unfold Qle, Qlt; simpl; lia.
Defined.

(** ** Keys, kinds and colours *)

Lemma append_inv_head (p a b : string) : p ++ a = p ++ b -> a = b.
Proof.
  induction p as [|c p IH]; cbn [append]; [auto|].
  intros H. injection H as H. now apply IH.
Qed.

(** X13. A key determines the position and the kind it was built from: two
    keys are equal exactly when both are. *)
Theorem X13_cell_key_injective (n m : nat) (t t' : string) :
  make_cell_key n t = make_cell_key m t' <-> n = m /\ t = t'.
Proof.
  split.
  - intros H. pose proof (make_cell_key_inj _ _ _ _ H) as ->.
    split; [reflexivity|]. unfold make_cell_key in H.
    apply append_inv_head in H. apply append_inv_head in H.
    now injection H.
  - now intros [-> ->].
Qed.

Lemma X13_witness : (1 = 1 /\ "lfp" = "lfp")%nat.
Proof.
  apply (proj1 (X13_cell_key_injective 1 1 "lfp" "lfp")). reflexivity.
Defined.

Lemma NoDup_map_injective {A B : Type} (f : A -> B) (l : list A) :
  (forall x y, f x = f y -> x = y) -> NoDup l -> NoDup (map f l).
Proof.
  intros Hinj. induction 1 as [|x l Hnotin _ IH]; cbn [map]; constructor.
  - intros Hin. apply in_map_iff in Hin as (y & Hy & Hin).
    apply Hinj in Hy. now subst.
  - exact IH.
Qed.

(** X14. In every reachable session the widget keys of the current inputs
    of the monitoring page are pairwise distinct. *)
Theorem X14_widget_keys_distinct (s : Session) :
  reachable s -> NoDup (map current_widget_key (Py.keys (cells_data s))).
Proof.
  intros Hr. apply NoDup_map_injective.
  - intros x y H. unfold current_widget_key in H.
    now apply append_inv_head in H.
  - apply inv_NoDup, reachable_inv, Hr.
Qed.

Lemma X14_witness :
  NoDup (map current_widget_key (Py.keys (cells_data monitoring))).
Proof.
  exact (X14_widget_keys_distinct monitoring monitoring_reachable).
Defined.

(** X15. For every cell of a reachable session, the kind shown in the data
    frame is LFP or NMC, the colour the two charts look up for it in
    [color_discrete_map], the bar colour of the capacity chart, and the
    colour of its monitoring card are the same, and the card class of the
    setup page is the one of that kind. *)
Theorem X15_kind_colours (s : Session) (i : nat) (k : string) (c : Cell) :
  reachable s -> nth_error (cells_data s) i = Some (k, c) ->
  exists r,
    nth_error (df_data s) i = Some r
    /\ (row_type r = "LFP" \/ row_type r = "NMC")
    /\ Py.get (row_type r) color_discrete_map = Some (card_color c)
    /\ nth_error (marker_color s) i = Some (card_color c)
    /\ card_class (type c)
       = (if row_type r =? "LFP" then "lfp-card" else "nmc-card")
    /\ nth_error (cell_types s) i = Some (Py.lower (row_type r)).
Proof.
  intros Hr Hnth. pose proof (reachable_inv _ Hr) as Hinv.
  pose proof (nth_error_In _ _ Hnth) as Hin.
  destruct (In_values _ _ _ _ (inv_cells _ Hinv) Hin) as (_ & Hkind & _).
  assert (Hty : nth_error (cell_types s) i = Some (type c)).
  { apply (map_nth_error key_and_type) in Hnth.
    rewrite (inv_sync _ Hinv) in Hnth. cbn [key_and_type fst snd] in Hnth.
    now apply keyed_nth in Hnth. }
  eexists. split.
  - unfold df_data. apply map_nth_error. exact Hnth.
  - unfold marker_color, df_data. rewrite map_map.
    rewrite (map_nth_error _ _ _ Hnth). cbn [row_type snd].
    unfold card_color, card_class. rewrite Hty.
    destruct Hkind as [(-> & _)|(-> & _)]; repeat split; auto.
Qed.

Lemma X15_witness :
  exists r,
    nth_error (df_data monitoring) 1 = Some r
    /\ (row_type r = "LFP" \/ row_type r = "NMC")
    /\ Py.get (row_type r) color_discrete_map = Some "#764ba2"
    /\ nth_error (marker_color monitoring) 1 = Some "#764ba2"
    /\ "nmc-card" = (if row_type r =? "LFP" then "lfp-card" else "nmc-card")
    /\ nth_error (cell_types monitoring) 1 = Some (Py.lower (row_type r)).
Proof.
  refine (X15_kind_colours monitoring 1 "cell_2_nmc"
            (mkCell (36 # 10) 0 40.0 0 (32 # 10) (40 # 10) "nmc")
            monitoring_reachable _).
  reflexivity.
Defined.

(** ** Cell titles *)

Lemma replace_char_app (old new : ascii) (a b : string) :
  py_replace_char old new (a ++ b)
  = py_replace_char old new a ++ py_replace_char old new b.
Proof.
  induction a as [|c a IH]; cbn [append py_replace_char]; [reflexivity|].
  now rewrite IH.
Qed.

Lemma replace_char_digits (d : uint) :
  py_replace_char "_" " " (NilEmpty.string_of_uint d)
  = NilEmpty.string_of_uint d.
Proof.
  induction d; cbn [NilEmpty.string_of_uint py_replace_char];
    try reflexivity; rewrite IHd; reflexivity.
Qed.

Lemma title_from_digits (d : uint) (r : string) :
  title_from false (NilEmpty.string_of_uint d ++ r)
  = NilEmpty.string_of_uint d ++ title_from false r.
Proof.
  induction d; cbn [NilEmpty.string_of_uint append]; try reflexivity;
    match goal with
    | |- title_from false (String ?c ?x) = _ =>
        change (title_from false (String c x))
          with (String c (title_from false x))
    end; now rewrite IHd.
Qed.

(** The title of a key spells out its position and its kind. *)
Lemma cell_title_key (n : nat) (t : string) :
  cell_title (make_cell_key n t)
  = "Cell " ++ Py.str n ++ " " ++ py_title (py_replace_char "_" " " t).
Proof.
  unfold cell_title, make_cell_key, py_title, Py.str.
  rewrite !replace_char_app, replace_char_digits.
  change (py_replace_char "_" " " "cell_") with "cell ".
  change (py_replace_char "_" " " "_") with " ".
  change (title_from false ("cell " ++ ?x))
    with ("Cell " ++ title_from false x).
  now rewrite title_from_digits.
Qed.

Lemma string_of_uint_space_inj (d d' : uint) (r r' : string) :
  NilEmpty.string_of_uint d ++ String " " r
  = NilEmpty.string_of_uint d' ++ String " " r' ->
  d = d'.
Proof.
  revert d'. induction d as [|d IH|d IH|d IH|d IH|d IH|d IH|d IH|d IH|d IH|d IH];
    intros [|e|e|e|e|e|e|e|e|e|e]; simpl; intros H;
    try reflexivity; try discriminate H;
    injection H as H; f_equal; now apply IH.
Qed.

Lemma cell_title_key_inj (n m : nat) (t t' : string) :
  cell_title (make_cell_key n t) = cell_title (make_cell_key m t') -> n = m.
Proof.
  rewrite !cell_title_key. unfold Py.str. intros H.
  apply append_inv_head in H.
  apply string_of_uint_space_inj in H.
  now apply Unsigned.to_uint_inj.
Qed.

Lemma keyed_titles_NoDup (n : nat) (ts : list string) :
  NoDup (map cell_title (map fst (keyed n ts))).
Proof.
  revert n. induction ts as [|t0 ts IH]; intros n; simpl; constructor.
  - intros Hin. apply in_map_iff in Hin as (k & Hk & Hin).
    apply keyed_keys_range in Hin as (i & t & Hi & ->).
    apply cell_title_key_inj in Hk. lia.
  - apply IH.
Qed.

(** X16. In every reachable session the title shown for the [i]-th cell is
    "Cell", its position counted from one, and "Lfp" or "Nmc"; the titles
    of the rows of the data frame are pairwise distinct. *)
Theorem X16_cell_titles (s : Session) :
  reachable s ->
  (forall i k c,
     nth_error (cells_data s) i = Some (k, c) ->
     cell_title k
     = "Cell " ++ Py.str (S i) ++ " "
       ++ (if type c =? "lfp" then "Lfp" else "Nmc"))
  /\ NoDup (map row_cell (df_data s)).
Proof.
  intros Hr. pose proof (reachable_inv _ Hr) as Hinv. split.
  - intros i k c Hnth.
    pose proof (nth_error_In _ _ Hnth) as Hin.
    destruct (In_values _ _ _ _ (inv_cells _ Hinv) Hin) as (_ & Hkind & _).
    apply (map_nth_error key_and_type) in Hnth.
    rewrite (inv_sync _ Hinv) in Hnth.
    destruct (keyed_nth _ _ _ k (type c) Hnth) as [-> _].
    rewrite cell_title_key.
    cbn [Nat.add]. destruct Hkind as [(-> & _)|(-> & _)]; reflexivity.
  - unfold df_data. rewrite map_map. cbn [row_cell].
    rewrite <- (map_map fst cell_title).
    change (map fst (cells_data s)) with (Py.keys (cells_data s)).
    rewrite <- keys_key_and_type, (inv_sync _ Hinv).
    apply keyed_titles_NoDup.
Qed.

Lemma X16_witness :
  cell_title "cell_2_nmc" = "Cell 2 Nmc".
Proof.
  refine (proj1 (X16_cell_titles monitoring monitoring_reachable)
            1%nat "cell_2_nmc"
            (mkCell (36 # 10) 0 40.0 0 (32 # 10) (40 # 10) "nmc") _).
  reflexivity.
Defined.

(** ** Pages *)

(** X17. In every reachable session the step is 1 or 2, so one of the two
    pages is shown; and on the monitoring page Quick Stats is shown and the
    data frame has a row for each cell, at least one. *)
Theorem X17_pages (s : Session) :
  reachable s ->
  (step s = 1%Z \/ step s = 2%Z)
  /\ (step s = 2%Z ->
      quick_stats s <> None
      /\ df_data s <> []
      /\ List.length (df_data s) = List.length (cell_types s)).
Proof.
  intros Hr. pose proof (reachable_inv _ Hr) as Hinv.
  split; [exact (inv_step _ Hinv)|]. intros Hstep.
  pose proof (inv_monitor _ Hinv Hstep) as Hne.
  pose proof (inv_same_length _ Hinv) as Hlen.
  unfold quick_stats, df_data. rewrite length_map.
  destruct (cells_data s) as [|kc d].
  - destruct (cell_types s); [contradiction|discriminate Hlen].
  - repeat split; try discriminate. exact Hlen.
Qed.

Lemma X17_witness :
  quick_stats monitoring <> None
  /\ df_data monitoring <> []
  /\ List.length (df_data monitoring) = List.length (cell_types monitoring).
Proof.
  apply (proj2 (X17_pages monitoring monitoring_reachable)). reflexivity.
Defined.

(** X18. An enabled Add Cell on a reachable session adds one row at the end
    of the data frame and leaves the other rows as they are; the new row
    shows the selected kind, the next position in its title, current and
    capacity 0 and the rounded draw as temperature, and the battery level
    of the new cell is 0. *)
Theorem X18_add_cell_row (s : Session) (selected_type : string) (u : Q) :
  reachable s -> In selected_type cell_type_options -> step s = 1%Z ->
  add_cell_disabled selected_type s = false ->
  exists (r : Row) (c : Cell),
    df_data (add_cell selected_type u s) = (df_data s ++ [r])%list
    /\ cells_data (add_cell selected_type u s)
       = (cells_data s
          ++ [(make_cell_key (S (List.length (cell_types s)))
                 (Py.lower selected_type), c)])%list
    /\ row_type r = selected_type
    /\ row_cell r
       = "Cell " ++ Py.str (S (List.length (cell_types s))) ++ " "
         ++ py_title (Py.lower selected_type)
    /\ row_current r = 0 /\ row_capacity r = 0
    /\ row_temperature r = Py.round u 1
    /\ row_voltage r = voltage c
    /\ battery_level c = 0.
Proof.
  intros Hr Hin Hstep Hen. pose proof (reachable_inv _ Hr) as Hinv.
  destruct (add_cell_enabled _ u _ Hin Hstep Hen (inv_sync _ Hinv))
    as (c & Hk & Hcur & Hcap & Htemp & Heq).
  assert (Hty : type c = Py.lower selected_type
                /\ py_upper (type c) = selected_type
                /\ py_replace_char "_" " " (type c) = type c).
  { destruct Hk as [(-> & -> & _)|(-> & -> & _)]; repeat split. }
  destruct Hty as (Hlow & Hup & Hrep).
  eexists. exists c. rewrite Heq. cbn [cells_data].
  unfold df_data at 1. cbn [cells_data]. rewrite map_app. cbn [map fst snd].
  split; [reflexivity|]. cbn [row_type row_cell row_current row_capacity
                              row_temperature row_voltage].
  rewrite cell_title_key, Hrep, Hup, Hcur, Hcap, Htemp, <- Hlow.
  repeat split.
  unfold battery_level. rewrite Hcap. reflexivity.
Qed.

Lemma X18_witness :
  exists (r : Row) (c : Cell),
    df_data (add_cell "LFP" 30 two_cells) = (df_data two_cells ++ [r])%list
    /\ cells_data (add_cell "LFP" 30 two_cells)
       = (cells_data two_cells ++ [("cell_3_lfp", c)])%list
    /\ row_type r = "LFP"
    /\ row_cell r = "Cell 3 Lfp"
    /\ row_current r = 0 /\ row_capacity r = 0
    /\ row_temperature r = Py.round 30 1
    /\ row_voltage r = voltage c
    /\ battery_level c = 0.
Proof.
  refine (X18_add_cell_row two_cells "LFP" 30 two_cells_reachable _ _ _).
  - right. left. reflexivity.
  - reflexivity.
  - reflexivity.
Defined.
